(** * Headless playback harness ([ci/headless_playback.py])

    A shallow embedding of the fixture-driven CI harness: the fixture
    matrix is a JSON value, the harness functions run in a state and
    exception monad over a world made of the file system, the clock, the
    process environment and the trace of the harness's observable actions.
    The Python runtime and the external collaborators (cargo, the player
    binary, the network) are fields of a [runtime] record. *)

From Stdlib Require Import ZArith QArith Qround Qabs Lqa Ascii String.
From stdpp Require Import gmap strings list fin_maps pretty.

Local Open Scope Z_scope.
Local Open Scope string_scope.

(** ** Python values *)

(** A Python [float]: every finite double is a dyadic rational. *)
Inductive pyfloat :=
| FFinite (q : Q)
| FInf (negative : bool)
| FNaN.

(** What [json.loads] produces: [None], [bool], [int], [float], [str],
    [list] and [dict] with string keys. *)
#[warnings="-register-all"]
Inductive json :=
| JNull
| JBool (b : bool)
| JInt (z : Z)
| JFloat (f : pyfloat)
| JStr (s : string)
| JArr (l : list json)
| JObj (m : gmap string json).

Inductive exn :=
| RuntimeError (msg : string)
| KeyError (key : string)
| TypeError
| AttributeError
| ValueError
| OverflowError
| JSONDecodeError
| OSError
| CalledProcessError (returncode : Z).

Inductive outcome (A : Type) :=
| Ok (a : A)
| Raise (e : exn).
Arguments Ok {A} a.
Arguments Raise {A} e.

Definition nl : string := String "010"%char EmptyString.

Definition Qeqb0 (q : Q) : bool := Z.eqb (Qnum q) 0.

(** [bool(v)]: the truth value tested by [if not v]. *)
Definition truthy (v : json) : bool :=
  match v with
  | JNull => false
  | JBool b => b
  | JInt z => negb (Z.eqb z 0)
  | JFloat (FFinite q) => negb (Qeqb0 q)
  | JFloat _ => true
  | JStr s => negb (String.eqb s "")
  | JArr l => match l with [] => false | _ => true end
  | JObj m => negb (Nat.eqb (size m) 0)
  end.

(** [v == s] for a string literal [s]. *)
Definition eq_str (v : json) (s : string) : bool :=
  match v with
  | JStr t => String.eqb t s
  | _ => false
  end.

(** [d.get(key, default)]; only a [dict] has the method. *)
Definition py_get (d : json) (key : string) (default : json) : outcome json :=
  match d with
  | JObj m => Ok (match m !! key with Some v => v | None => default end)
  | _ => Raise AttributeError
  end.

(** [d[key]]: a [dict] looks the key up, a [list] or [str] refuses a
    string index, the other values are not subscriptable. *)
Definition py_getitem (d : json) (key : string) : outcome json :=
  match d with
  | JObj m => match m !! key with Some v => Ok v | None => Raise (KeyError key) end
  | _ => Raise TypeError
  end.

Fixpoint chars (s : string) : list json :=
  match s with
  | EmptyString => []
  | String c s' => JStr (String c EmptyString) :: chars s'
  end.

(** [iter(v)]: the elements a [for] loop or a comprehension visits. *)
Definition py_iter (v : json) : outcome (list json) :=
  match v with
  | JArr l => Ok l
  | JStr s => Ok (chars s)
  | JObj m => Ok (JStr <$> (map_to_list m).*1)
  | _ => Raise TypeError
  end.

(** Truncation toward zero, as [int(float)] does. *)
Definition Qtrunc (q : Q) : Z := Z.quot (Qnum q) (Z.pos (Qden q)).

(** ** The Python runtime and the external collaborators *)

Inductive node :=
| Dir
| File (data : string).

(** The part of the world that other processes share with the harness. *)
Record host := {
  h_fs : gmap string node;
  h_now : Q
}.

Record runtime := {
  (** [json.loads] *)
  rt_json_loads : string -> option json;
  (** [int(s)] for a [str] *)
  rt_int_of_str : string -> option Z;
  (** [str(v)] for floats, lists and dicts *)
  rt_repr : json -> string;
  (** [str(Path(s))] *)
  rt_path : string -> string;
  (** [str(Path(p) / s)] *)
  rt_joinpath : string -> string -> string;
  (** [str(Path(p).parent)] *)
  rt_parent : string -> string;
  (** subtraction of doubles *)
  rt_fsub : Q -> Q -> Q;
  (** [platform.platform()]: the text, and the host after the call, which
      may start a helper process of its own ([uname -p] on Linux) *)
  rt_platform : host -> string * host;
  (** the decoding of a captured output ([text=True]): [None] when the
      bytes are not text in the locale's encoding *)
  rt_decode : string -> option string;
  (** [time.strftime('%Y-%m-%d %H:%M:%S %Z')] at a clock value *)
  rt_strftime : Q -> string;
  (** [subprocess.run(cmd, env=env)]: [None] when the program cannot be
      started, else the return code and the merged output *)
  rt_spawn : list string -> gmap string string -> host -> option (Z * string) * host;
  (** [urllib.request.urlretrieve(url, target)]: [None] on success, else
      the exception of the network or storage failure *)
  rt_urlretrieve : string -> string -> host -> option exn * host
}.

(** ** The world and the harness monad *)

(** What the harness does that can be seen from outside: [EvSpawn] is a
    call of [subprocess.run] by the harness, [EvPlatform] its call of
    [platform.platform()], which may start a process of the library's own. *)
Inductive event :=
| EvPrint (line : string)
| EvMkdir (path : string)
| EvSpawn (cmd : list string) (env : gmap string string)
| EvPlatform
| EvFetch (url target : string)
| EvWriteLog (path text : string)
| EvWriteReport (path text : string)
| EvTraceback (e : exn).

Record world := {
  w_host : host;
  w_environ : gmap string string;
  w_trace : list event
}.

Definition M (A : Type) : Type := world -> outcome A * world.

Definition ret {A} (a : A) : M A := fun w => (Ok a, w).

Definition raise {A} (e : exn) : M A := fun w => (Raise e, w).

Definition bind {A B} (m : M A) (k : A -> M B) : M B :=
  fun w =>
    match m w with
    | (Ok a, w') => k a w'
    | (Raise e, w') => (Raise e, w')
    end.

Definition lift {A} (o : outcome A) : M A := fun w => (o, w).

Declare Scope harness_scope.
Delimit Scope harness_scope with harness.
Notation "x <- m ;; k" := (bind m (fun x => k))
  (at level 100, m at next level, right associativity) : harness_scope.
Notation "m ;;; k" := (bind m (fun _ => k))
  (at level 100, right associativity) : harness_scope.
Local Open Scope harness_scope.

Definition emit (e : event) : M unit :=
  fun w => (Ok tt, {| w_host := w_host w; w_environ := w_environ w;
                      w_trace := (w_trace w ++ [e])%list |}).

Definition get_host : M host := fun w => (Ok (w_host w), w).

Definition put_host (h : host) : M unit :=
  fun w => (Ok tt, {| w_host := h; w_environ := w_environ w; w_trace := w_trace w |}).

Definition get_environ : M (gmap string string) := fun w => (Ok (w_environ w), w).

Definition set_fs (fs : gmap string node) (h : host) : host :=
  {| h_fs := fs; h_now := h_now h |}.

(** [time.time()] *)
Definition time_time : M Q := h <- get_host ;; ret (h_now h).

(** [path.exists()] *)
Definition path_exists (p : string) : M bool :=
  h <- get_host ;; ret (bool_decide (is_Some (h_fs h !! p))).

(** [path.mkdir(parents=True, exist_ok=True)]: fails when the path is a
    file, succeeds when it is already a directory. The map records the
    path itself; the ancestors that the call would make are not tracked,
    so a statement that needs the directory to be made says that its
    parent is there. *)
Definition mkdir (p : string) : M unit :=
  h <- get_host ;;
  match h_fs h !! p with
  | Some (File _) => raise OSError
  | _ => put_host (set_fs (<[p := Dir]> (h_fs h)) h) ;;; emit (EvMkdir p)
  end.

(** [path.read_text()] *)
Definition read_text (p : string) : M string :=
  h <- get_host ;;
  match h_fs h !! p with
  | Some (File data) => ret data
  | _ => raise OSError
  end.

(** Writing a whole file, truncating what was there ([open("w")],
    [write_text]): the path must not be a directory and its parent must be
    one. *)
Definition write_file (rt : runtime) (p text : string) : M unit :=
  h <- get_host ;;
  match h_fs h !! p with
  | Some Dir => raise OSError
  | _ =>
      match h_fs h !! rt_parent rt p with
      | Some Dir => put_host (set_fs (<[p := File text]> (h_fs h)) h)
      | _ => raise OSError
      end
  end.

Definition print (line : string) : M unit := emit (EvPrint line).

(** ** The harness *)

Record Args := {
  a_fixtures : string;
  a_suite : string;
  a_log_dir : string;
  a_report : string;
  a_skip_build : bool;
  a_release : bool
}.

(** The values [--suite] accepts ([choices] of [parse_args]). *)
Definition suite_choices : list string := ["smoke"; "full"].

(** The dictionary [run_fixture] returns. *)
Record FixtureResult := {
  r_id : json;
  r_codec : json;
  r_container : json;
  r_frames : Z;
  r_result : string;
  r_log : string;
  r_duration : Q
}.

(** Rounding a non-negative rational to the nearest integer, ties to even. *)
Definition round_half_even (q : Q) : Z :=
  let f := Qfloor q in
  match Qcompare (q - inject_Z f) (1 # 2) with
  | Lt => f
  | Gt => f + 1
  | Eq => if Z.even f then f else f + 1
  end.

Definition Qnegb (q : Q) : bool := Z.ltb (Qnum q) 0.

(** [f"{d:.2f}"] for a finite double [d]. *)
Definition format_2f (d : Q) : string :=
  let c := round_half_even (Qabs d * 100) in
  (if Qnegb d then "-" else "")
    +:+ pretty (c / 100) +:+ "." +:+ pretty (c mod 100 / 10) +:+ pretty (c mod 10).

Section Harness.

Variable rt : runtime.

(** [str(v)], which is what an f-string or [str.format] puts in the text. *)
Definition py_str (v : json) : string :=
  match v with
  | JNull => "None"
  | JBool true => "True"
  | JBool false => "False"
  | JInt z => pretty z
  | JStr s => s
  | _ => rt_repr rt v
  end.

(** [int(v)] *)
Definition py_int (v : json) : outcome Z :=
  match v with
  | JInt z => Ok z
  | JBool b => Ok (if b then 1 else 0)
  | JFloat (FFinite q) => Ok (Qtrunc q)
  | JFloat (FInf _) => Raise OverflowError
  | JFloat FNaN => Raise ValueError
  | JStr s => match rt_int_of_str rt s with Some z => Ok z | None => Raise ValueError end
  | _ => Raise TypeError
  end.

(** [base / v]: the right operand has to be a [str]. *)
Definition joinpath (base : string) (v : json) : outcome string :=
  match v with
  | JStr s => Ok (rt_joinpath rt base s)
  | _ => Raise TypeError
  end.

(** [subprocess.run(cmd, env=env)] *)
Definition subprocess_run (cmd : list string) (env : gmap string string) : M (Z * string) :=
  emit (EvSpawn cmd env) ;;;
  h <- get_host ;;
  let '(r, h') := rt_spawn rt cmd env h in
  put_host h' ;;;
  match r with
  | Some proc => ret proc
  | None => raise OSError
  end.

(** [subprocess.run(cmd, stdout=PIPE, stderr=STDOUT, env=env, text=True)]:
    the merged output is decoded when the process has ended, and bytes
    that are not text are a [UnicodeDecodeError], a [ValueError]. *)
Definition subprocess_run_text (cmd : list string) (env : gmap string string)
    : M (Z * string) :=
  proc <- subprocess_run cmd env ;;
  match rt_decode rt (snd proc) with
  | Some text => ret (fst proc, text)
  | None => raise ValueError
  end.

(** [platform.platform()] *)
Definition platform_platform : M string :=
  emit EvPlatform ;;;
  h <- get_host ;;
  let '(text, h') := rt_platform rt h in
  put_host h' ;;;
  ret text.

(** [urllib.request.urlretrieve(url, target)] *)
Definition urlretrieve (url : json) (target : string) : M unit :=
  match url with
  | JStr u =>
      emit (EvFetch u target) ;;;
      h <- get_host ;;
      let '(r, h') := rt_urlretrieve rt u target h in
      put_host h' ;;;
      match r with
      | None => ret tt
      | Some e => raise e
      end
  | _ => raise TypeError
  end.

Definition load_fixtures (path : string) : M json :=
  text <- read_text path ;;
  match rt_json_loads rt text with
  | None => raise JSONDecodeError
  | Some data =>
      fixtures <- lift (py_get data "fixtures" (JArr [])) ;;
      if negb (truthy fixtures)
      then raise (RuntimeError "No fixtures found in matrix file.")
      else ret fixtures
  end.

Definition ensure_download (fixture : json) (downloads_dir : string) : M string :=
  filename <- lift (py_get fixture "file" JNull) ;;
  url <- lift (py_get fixture "url" JNull) ;;
  if negb (truthy filename) || negb (truthy url)
  then
    id <- lift (py_get fixture "id" JNull) ;;
    raise (RuntimeError ("Fixture " +:+ py_str id +:+ " missing file or url."))
  else
    mkdir downloads_dir ;;;
    target_path <- lift (joinpath downloads_dir filename) ;;
    present <- path_exists target_path ;;
    if present then ret target_path
    else
      id <- lift (py_getitem fixture "id") ;;
      print ("Downloading " +:+ py_str id +:+ " from " +:+ py_str url +:+ "...") ;;;
      urlretrieve url target_path ;;;
      ret target_path.

(** [Path("target") / ("release" if release else "debug") / "slain"] *)
Definition binary_path (release : bool) : string :=
  rt_joinpath rt
    (rt_joinpath rt (rt_path rt "target") (if release then "release" else "debug"))
    "slain".

Definition build_binary (release : bool) : M string :=
  let cmd := (["cargo"; "build"; "-p"; "slain-player"]
                ++ (if release then ["--release"] else []))%list in
  env <- get_environ ;;
  proc <- subprocess_run cmd env ;;
  if negb (Z.eqb (fst proc) 0) then raise (CalledProcessError (fst proc))
  else
    let binary := binary_path release in
    present <- path_exists binary ;;
    if negb present
    then raise (RuntimeError ("Expected binary not found at " +:+ binary))
    else ret binary.

(** [env.setdefault(key, value)] on the copy [env] of the environment. *)
Definition setdefault (key value : string) (env : gmap string string) : gmap string string :=
  match env !! key with
  | Some _ => env
  | None => <[key := value]> env
  end.

(** The text [run_fixture] writes to the log of a fixture. *)
Definition log_text (fixture_id codec container : json) (file_path : string)
    (frames returncode : Z) (duration : Q) (output : string) : string :=
  ("fixture: " +:+ py_str fixture_id +:+ nl)
    +:+ ("codec: " +:+ py_str codec +:+ nl)
    +:+ ("container: " +:+ py_str container +:+ nl)
    +:+ ("file: " +:+ file_path +:+ nl)
    +:+ ("frames: " +:+ pretty frames +:+ nl)
    +:+ ("exit_code: " +:+ pretty returncode +:+ nl)
    +:+ ("duration_seconds: " +:+ format_2f duration +:+ nl)
    +:+ (nl +:+ "--- output ---" +:+ nl)
    +:+ output.

Definition run_fixture (binary : string) (fixture : json) (file_path log_dir : string)
    : M FixtureResult :=
  fixture_id <- lift (py_getitem fixture "id") ;;
  frames_value <- lift (py_get fixture "frames" (JInt 60)) ;;
  frames <- lift (py_int frames_value) ;;
  let log_path := rt_joinpath rt log_dir (py_str fixture_id +:+ ".log") in
  let cmd := [binary; "--headless"; "--input"; file_path; "--frames"; pretty frames] in
  environ <- get_environ ;;
  let env := setdefault "RUST_LOG" "info" environ in
  start <- time_time ;;
  proc <- subprocess_run_text cmd env ;;
  finish <- time_time ;;
  let duration := rt_fsub rt finish start in
  mkdir log_dir ;;;
  write_file rt log_path "" ;;;
  codec <- lift (py_get fixture "codec" JNull) ;;
  container <- lift (py_get fixture "container" JNull) ;;
  let text := log_text fixture_id codec container file_path frames (fst proc) duration
                (snd proc) in
  write_file rt log_path text ;;;
  emit (EvWriteLog log_path text) ;;;
  codec <- lift (py_get fixture "codec" JNull) ;;
  container <- lift (py_get fixture "container" JNull) ;;
  ret {| r_id := fixture_id;
         r_codec := codec;
         r_container := container;
         r_frames := frames;
         r_result := if Z.eqb (fst proc) 0 then "pass" else "fail";
         r_log := log_path;
         r_duration := duration |}.

Definition report_row (r : FixtureResult) : string :=
  "| " +:+ py_str (r_id r) +:+ " | " +:+ py_str (r_codec r) +:+ " | "
    +:+ py_str (r_container r) +:+ " | " +:+ pretty (r_frames r) +:+ " | "
    +:+ r_result r +:+ " |".

Definition report_log_line (r : FixtureResult) : string :=
  "- " +:+ py_str (r_id r) +:+ ": " +:+ r_log r.

Definition write_report (results : list FixtureResult) (suite report_path : string) : M unit :=
  mkdir (rt_parent rt report_path) ;;;
  platform_info <- platform_platform ;;
  now <- time_time ;;
  let report_lines :=
    (["# Headless Playback Report";
      "";
      "- Suite: " +:+ suite;
      "- Platform: " +:+ platform_info;
      "- Generated: " +:+ rt_strftime rt now;
      "";
      "| Fixture | Codec | Container | Frames | Result |";
      "| --- | --- | --- | --- | --- |"]
     ++ (report_row <$> results)
     ++ [""; "## Logs"]
     ++ (report_log_line <$> results))%list in
  let text := String.concat nl report_lines in
  write_file rt report_path text ;;;
  emit (EvWriteReport report_path text).

(** [[f for f in fixtures if f.get("suite") == "smoke"]] on the elements. *)
Fixpoint smoke_only (fixtures : list json) : outcome (list json) :=
  match fixtures with
  | [] => Ok []
  | f :: rest =>
      match py_get f "suite" JNull with
      | Raise e => Raise e
      | Ok tag =>
          match smoke_only rest with
          | Raise e => Raise e
          | Ok kept => Ok (if eq_str tag "smoke" then f :: kept else kept)
          end
      end
  end.

(** The suite selection of [main]: the comprehension runs for [smoke]
    only, any other suite keeps the loaded value as it is. *)
Definition select_suite (suite : string) (fixtures : json) : outcome json :=
  if String.eqb suite "smoke"
  then
    match py_iter fixtures with
    | Raise e => Raise e
    | Ok items =>
        match smoke_only items with
        | Raise e => Raise e
        | Ok kept => Ok (JArr kept)
        end
    end
  else Ok fixtures.

(** The loop of [main] over the selected fixtures; [binary] is [None]
    until the first fixture when the build was skipped. *)
Fixpoint run_fixtures (release : bool) (downloads_dir log_dir : string)
    (fixtures : list json) (binary : option string) (results : list FixtureResult)
    : M (list FixtureResult) :=
  match fixtures with
  | [] => ret results
  | fixture :: rest =>
      file_path <- ensure_download fixture downloads_dir ;;
      let binary' := match binary with
                     | None => binary_path release
                     | Some b => b
                     end in
      result <- run_fixture binary' fixture file_path log_dir ;;
      run_fixtures release downloads_dir log_dir rest (Some binary') (results ++ [result])%list
  end.

Definition is_failure (r : FixtureResult) : bool := negb (String.eqb (r_result r) "pass").

Fixpoint print_failures (failures : list FixtureResult) : M unit :=
  match failures with
  | [] => ret tt
  | failure :: rest =>
      print ("- " +:+ py_str (r_id failure) +:+ ": " +:+ r_log failure) ;;;
      print_failures rest
  end.

(** [main] up to the end of its loop (lines 170 to 189): the results.
    [args] is the namespace that [parse_args] has returned at line 169: a
    command line that argparse refuses (a [--suite] outside
    [suite_choices]) or answers itself ([--help]) ends the process there,
    before anything below runs. *)
Definition main_run (args : Args) : M (list FixtureResult) :=
  let fixtures_path := rt_path rt (a_fixtures args) in
  fixtures <- load_fixtures fixtures_path ;;
  fixtures <- lift (select_suite (a_suite args) fixtures) ;;
  if negb (truthy fixtures)
  then raise (RuntimeError "No fixtures selected for suite.")
  else
    let downloads_dir := rt_path rt "slain-player/fixtures/downloads" in
    binary <- (if negb (a_skip_build args)
               then b <- build_binary (a_release args) ;; ret (Some b)
               else ret None) ;;
    let log_dir := rt_path rt (a_log_dir args) in
    items <- lift (py_iter fixtures) ;;
    run_fixtures (a_release args) downloads_dir log_dir items binary [].

(** The rest of [main] (lines 191 to 202): the report and the status. *)
Definition main_finish (args : Args) (results : list FixtureResult) : M Z :=
  let report_path := rt_path rt (a_report args) in
  write_report results (a_suite args) report_path ;;;
  let failures := List.filter is_failure results in
  match failures with
  | _ :: _ =>
      print "Headless playback failures detected:" ;;;
      print_failures failures ;;;
      ret 1
  | [] =>
      print ("Headless playback completed successfully. Report: " +:+ report_path) ;;;
      ret 0
  end.

Definition main (args : Args) : M Z :=
  results <- main_run args ;;
  main_finish args results.

(** [sys.exit(main())]: the status of the process. An exception that
    leaves [main] is printed by the interpreter, which exits with 1. *)
Definition script (args : Args) (w : world) : Z * world :=
  match main args w with
  | (Ok code, w') => (code, w')
  | (Raise e, w') => (1, snd (emit (EvTraceback e) w'))
  end.

End Harness.

(** ** A concrete runtime

    Paths are joined with a slash, the matrix file is parsed by table, the
    build leaves the binary in place when it succeeds, a download creates
    its target, and the player prints its output and exits with its code.
    The scenarios below are runs of the harness on this runtime. *)

Definition fields_a : gmap string json :=
  list_to_map [("id", JStr "a"); ("file", JStr "a.mp4"); ("url", JStr "http://x/a.mp4");
               ("suite", JStr "smoke")].

Definition fields_b : gmap string json :=
  list_to_map [("id", JStr "b"); ("file", JStr "b.mp4"); ("url", JStr "http://x/b.mp4");
               ("suite", JStr "full")].

(** A definition without [url]. *)
Definition fields_c : gmap string json :=
  list_to_map [("id", JStr "c"); ("file", JStr "c.mp4"); ("suite", JStr "full")].

(** A definition whose [file] is the empty string. *)
Definition fields_e : gmap string json :=
  list_to_map [("id", JStr "e"); ("file", JStr ""); ("url", JStr "http://x/e.mp4");
               ("suite", JStr "smoke")].

Definition fixture_a : json := JObj fields_a.
Definition fixture_b : json := JObj fields_b.
Definition fixture_c : json := JObj fields_c.

Definition matrix_of (fixtures : list json) : json :=
  JObj (list_to_map [("fixtures", JArr fixtures)]).

(** The directory part of a path: what is before the last slash. *)
Fixpoint dirname_slash (s : string) : option string :=
  match s with
  | EmptyString => None
  | String c s' =>
      match dirname_slash s' with
      | Some d => Some (String c d)
      | None => if Ascii.eqb c "/" then Some EmptyString else None
      end
  end.

Definition dirname (s : string) : string :=
  match dirname_slash s with
  | Some EmptyString => "/"
  | Some d => d
  | None => "."
  end.

(** Bytes that are text: no byte 255, which no UTF-8 text holds. *)
Fixpoint decode_text (raw : string) : option string :=
  match raw with
  | EmptyString => Some EmptyString
  | String c raw' =>
      if Ascii.eqb c "255" then None
      else match decode_text raw' with
           | Some text => Some (String c text)
           | None => None
           end
  end.

Record demo := {
  d_matrix : json;
  d_cargo_code : Z;
  d_cargo_leaves_binary : bool;
  d_player_code : Z;
  d_player_output : string;
  d_online : bool
}.

Definition touch (p : string) (h : host) : host :=
  set_fs (<[p := File "data"]> (h_fs h)) h.

Definition tick (h : host) : host := {| h_fs := h_fs h; h_now := (h_now h + (5 # 4))%Q |}.

Definition demo_spawn (d : demo) (cmd : list string) (env : gmap string string) (h : host)
    : option (Z * string) * host :=
  match cmd with
  | "cargo" :: args =>
      if Z.eqb (d_cargo_code d) 0 && d_cargo_leaves_binary d
      then (Some (0, ""),
            touch (if bool_decide ("--release" ∈ args)
                   then "target/release/slain" else "target/debug/slain") (tick h))
      else (Some (d_cargo_code d, ""), tick h)
  | program :: _ =>
      if bool_decide (is_Some (h_fs h !! program))
      then (Some (d_player_code d, d_player_output d), tick h)
      else (None, h)
  | [] => (None, h)
  end.

Definition demo_runtime (d : demo) : runtime :=
  {| rt_json_loads := fun text => if String.eqb text "matrix" then Some (d_matrix d) else None;
     rt_int_of_str := fun _ => None;
     rt_repr := fun _ => "?";
     rt_path := fun s => s;
     rt_joinpath := fun p s => p +:+ "/" +:+ s;
     rt_parent := dirname;
     rt_fsub := Qminus;
     rt_platform := fun h => ("Linux", h);
     rt_decode := decode_text;
     rt_strftime := fun _ => "2024-01-01 00:00:00 UTC";
     rt_spawn := demo_spawn d;
     rt_urlretrieve := fun url target h =>
       if d_online d then (None, touch target (tick h)) else (Some OSError, h) |}.

(** Everything works and the player exits with [code] after printing
    [output]. *)
Definition scenario (catalog : list json) (code : Z) (output : string) : demo :=
  {| d_matrix := matrix_of catalog;
     d_cargo_code := 0;
     d_cargo_leaves_binary := true;
     d_player_code := code;
     d_player_output := output;
     d_online := true |}.

Definition demo_world : world :=
  {| w_host := {| h_fs := {[ "matrix.json" := File "matrix" ]}; h_now := 100 |};
     w_environ := {[ "PATH" := "/usr/bin" ]};
     w_trace := [] |}.

(** The world after a build and a download of [a.mp4]. *)
Definition warm_world : world :=
  {| w_host := touch "slain-player/fixtures/downloads/a.mp4"
                 (touch "target/debug/slain" (w_host demo_world));
     w_environ := w_environ demo_world;
     w_trace := [] |}.

(** The same with the [artifacts] directory in place. *)
Definition ready_world : world :=
  {| w_host := set_fs (<["artifacts" := Dir]> (h_fs (w_host warm_world))) (w_host warm_world);
     w_environ := w_environ warm_world;
     w_trace := [] |}.

Definition demo_args (suite : string) (skip_build : bool) : Args :=
  {| a_fixtures := "matrix.json";
     a_suite := suite;
     a_log_dir := "artifacts/headless-logs";
     a_report := "artifacts/headless-report.md";
     a_skip_build := skip_build;
     a_release := false |}.

Definition is_report (e : event) : bool :=
  match e with
  | EvWriteReport _ _ => true
  | _ => false
  end.

(** The fatal errors of the specification, one run each: status 1, and
    neither a report event nor a report file. *)
Definition fatal_run (d : demo) (suite : string) (e : exn) : Prop :=
  let run := script (demo_runtime d) (demo_args suite false) demo_world in
  fst (main (demo_runtime d) (demo_args suite false) demo_world) = Raise e
  /\ fst run = 1
  /\ existsb is_report (w_trace (snd run)) = false
  /\ h_fs (w_host (snd run)) !! "artifacts/headless-report.md" = None.

(** ** The selection the specification describes *)

Definition is_dict (v : json) : bool :=
  match v with
  | JObj _ => true
  | _ => false
  end.

(** A fixture whose [suite] field equals the tag. *)
Definition has_suite (suite : string) (f : json) : bool :=
  match f with
  | JObj m =>
      match m !! "suite" with
      | Some tag => eq_str tag suite
      | None => false
      end
  | _ => false
  end.

(** The subsequence of the catalog with the requested tag, as the
    specification words the filter. *)
Definition filter_by_suite (suite : string) (catalog : list json) : list json :=
  List.filter (has_suite suite) catalog.

(** ** Observations on a run *)

(** The text of the error for a definition without [file] or [url]. *)
Definition missing_message (rt : runtime) (id : json) : string :=
  "Fixture " +:+ py_str rt id +:+ " missing file or url.".

(** A build, a download or an execution: a call to a collaborator. *)
Definition is_step (e : event) : bool :=
  match e with
  | EvSpawn _ _ | EvFetch _ _ => true
  | _ => false
  end.

Definition not_report (e : event) : Prop :=
  match e with
  | EvWriteReport _ _ => False
  | _ => True
  end.

(** A computation that leaves the process environment alone and adds to
    the trace only events that satisfy [P]. *)
Definition emits {A} (P : event -> Prop) (m : M A) : Prop :=
  forall w,
    w_environ (snd (m w)) = w_environ w
    /\ exists evs, w_trace (snd (m w)) = (w_trace w ++ evs)%list /\ Forall P evs.

(** A computation whose runs that end in an exception have added to the
    trace only events that satisfy [P]. *)
Definition raises_only {A} (P : event -> Prop) (m : M A) : Prop :=
  forall w e w',
    m w = (Raise e, w') ->
    exists evs, w_trace w' = (w_trace w ++ evs)%list /\ Forall P evs.

(** A computation that raises nothing. *)
Definition never_raises {A} (m : M A) : Prop :=
  forall w, exists a w', m w = (Ok a, w').

Definition not_spawn (e : event) : Prop :=
  match e with
  | EvSpawn _ _ => False
  | _ => True
  end.

(** [int(fixture.get("frames", 60))] *)
Definition frames_of (rt : runtime) (fixture : json) : outcome Z :=
  match py_get fixture "frames" (JInt 60) with
  | Ok value => py_int rt value
  | Raise e => Raise e
  end.

(** The command line of the player for a fixture. *)
Definition player_cmd (binary file_path : string) (frames : Z) : list string :=
  [binary; "--headless"; "--input"; file_path; "--frames"; pretty frames].





Definition passed (r : FixtureResult) : Prop := r_result r = "pass".

(** A definition whose [file] is a number. *)
Definition fields_n : gmap string json :=
  list_to_map [("id", JStr "n"); ("file", JInt 5); ("url", JStr "http://x/n.mp4");
               ("suite", JStr "smoke")].



(** An output that is not text. *)
Definition binary_output : string := String "255"%char "boom".

(** A matrix file whose top level is the list of fixtures. *)
Definition bare_list_demo : demo :=
  {| d_matrix := JArr [fixture_a];
     d_cargo_code := 0;
     d_cargo_leaves_binary := true;
     d_player_code := 0;
     d_player_output := "ok";
     d_online := true |}.

(** ** Further observations *)

(** The command line of the build. *)
Definition cargo_cmd (release : bool) : list string :=
  (["cargo"; "build"; "-p"; "slain-player"] ++ (if release then ["--release"] else []))%list.

(** The line [ensure_download] prints before a fetch. *)
Definition download_message (rt : runtime) (id url : json) : string :=
  "Downloading " +:+ py_str rt id +:+ " from " +:+ py_str rt url +:+ "...".

Definition is_print (e : event) : Prop :=
  match e with
  | EvPrint _ => True
  | _ => False
  end.

(** The console lines that end a completed run. *)
Definition console_summary (rt : runtime) (report_path : string)
    (results : list FixtureResult) : list event :=
  match List.filter is_failure results with
  | [] => [EvPrint ("Headless playback completed successfully. Report: " +:+ report_path)]
  | failures =>
      EvPrint "Headless playback failures detected:"
        :: ((fun r => EvPrint ("- " +:+ py_str rt (r_id r) +:+ ": " +:+ r_log r)) <$> failures)
  end.

(** What a result says about the fixture it was made for. *)
Definition result_of (rt : runtime) (log_dir : string) (fixture : json) (r : FixtureResult)
    : Prop :=
  py_getitem fixture "id" = Ok (r_id r)
  /\ py_get fixture "codec" JNull = Ok (r_codec r)
  /\ py_get fixture "container" JNull = Ok (r_container r)
  /\ frames_of rt fixture = Ok (r_frames r)
  /\ r_log r = rt_joinpath rt log_dir (py_str rt (r_id r) +:+ ".log")
  /\ (r_result r = "pass" \/ r_result r = "fail").

(** The processes a run may start: the build, unless it is skipped, and
    the player at the path of the build mode. *)
Definition allowed_spawn (rt : runtime) (skip_build release : bool) (e : event) : Prop :=
  match e with
  | EvSpawn cmd _ =>
      (skip_build = false /\ cmd = cargo_cmd release)
      \/ exists file_path frames, cmd = player_cmd (binary_path rt release) file_path frames
  | _ => True
  end.

(** A computation whose results all satisfy [Q]. *)
Definition returns {A} (Q : A -> Prop) (m : M A) : Prop :=
  forall w a w', m w = (Ok a, w') -> Q a.

(** ** Suite selection *)

Lemma has_suite_get suite f :
  has_suite suite f = true <-> py_get f "suite" JNull = Ok (JStr suite).
Proof.
  destruct f as [| | | | |l|m]; simpl; try (split; discriminate).
  destruct (m !! "suite") as [tag|]; [|split; discriminate].
  destruct tag; simpl; try (split; [discriminate|intros [=]]).
  rewrite String.eqb_eq. split; [intros ->; reflexivity|intros [=]; assumption].
Qed.

Lemma smoke_only_dicts catalog :
  forallb is_dict catalog = true ->
  smoke_only catalog = Ok (filter_by_suite "smoke" catalog).
Proof.
  induction catalog as [|f rest IH]; simpl; [reflexivity|].
  intros [Hf Hrest]%andb_prop. rewrite (IH Hrest).
  destruct f; try discriminate. simpl.
  destruct (m !! "suite") as [tag|]; reflexivity.
Qed.

Lemma smoke_only_other catalog :
  forallb is_dict catalog = false -> smoke_only catalog = Raise AttributeError.
Proof.
  induction catalog as [|f rest IH]; simpl; [discriminate|].
  destruct f; simpl; try reflexivity.
  intros Hrest. rewrite (IH Hrest). reflexivity.
Qed.

Lemma filter_by_suite_sublist suite catalog :
  sublist (filter_by_suite suite catalog) catalog.
Proof.
  induction catalog as [|f rest IH]; simpl; [constructor|].
  destruct (has_suite suite f); [apply sublist_skip|apply sublist_cons]; exact IH.
Qed.

(** C1, as the code has it: for [smoke] the selection is exactly the
    subsequence of the catalog whose [suite] field is [smoke], in catalog
    order (an element that is not a record makes the comprehension raise);
    for every other suite the loaded catalog is selected as it is. *)
Theorem select_suite_smoke_filters (catalog : list json) :
  select_suite "smoke" (JArr catalog)
    = (if forallb is_dict catalog
       then Ok (JArr (filter_by_suite "smoke" catalog))
       else Raise AttributeError)
  /\ sublist (filter_by_suite "smoke" catalog) catalog
  /\ (forall f, In f (filter_by_suite "smoke" catalog)
                <-> In f catalog /\ py_get f "suite" JNull = Ok (JStr "smoke"))
  /\ (forall suite fixtures, suite <> "smoke" -> select_suite suite fixtures = Ok fixtures).
Proof.
  split; [|split; [|split]].
  - unfold select_suite. simpl.
    destruct (forallb is_dict catalog) eqn:Hd.
    + rewrite (smoke_only_dicts _ Hd). reflexivity.
    + rewrite (smoke_only_other _ Hd). reflexivity.
  - apply filter_by_suite_sublist.
  - intros f. unfold filter_by_suite. rewrite filter_In, has_suite_get. reflexivity.
  - intros suite fixtures Hne. unfold select_suite.
    destruct (String.eqb suite "smoke") eqn:E; [|reflexivity].
    apply String.eqb_eq in E. contradiction.
Qed.

(** C1 as stated fails for [full]: the catalog [a] (smoke), [b] (full) is
    selected whole, while the fixtures tagged [full] are [b] alone. *)
Lemma select_suite_full_keeps_smoke :
  select_suite "full" (JArr [fixture_a; fixture_b]) = Ok (JArr [fixture_a; fixture_b])
  /\ filter_by_suite "full" [fixture_a; fixture_b] = [fixture_b]
  /\ select_suite "full" (JArr [fixture_a; fixture_b])
       <> Ok (JArr (filter_by_suite "full" [fixture_a; fixture_b])).
Proof.
  split; [reflexivity|]. split; [reflexivity|].
  intros H.
  apply (f_equal (fun o => match o with Ok (JArr l) => length l | _ => O end)) in H.
  vm_compute in H. discriminate.
Qed.

(** ** Validation of a fixture at its first use *)

Lemma ensure_download_rejects rt fixture downloads_dir w filename url id :
  py_get fixture "file" JNull = Ok filename ->
  py_get fixture "url" JNull = Ok url ->
  py_get fixture "id" JNull = Ok id ->
  truthy filename = false \/ truthy url = false ->
  ensure_download rt fixture downloads_dir w
    = (Raise (RuntimeError (missing_message rt id)), w).
Proof.
  intros Hfile Hurl Hid Hfalsy.
  unfold ensure_download, bind, lift. rewrite Hfile, Hurl.
  assert (negb (truthy filename) || negb (truthy url) = true) as ->.
  { destruct Hfalsy as [-> | ->]; [reflexivity|apply orb_true_r]. }
  rewrite Hid. reflexivity.
Qed.

Lemma py_get_dict m key default :
  py_get (JObj m) key default
    = Ok (match m !! key with Some v => v | None => default end).
Proof. reflexivity. Qed.

(** C3, as the code has it: a definition without [file] or [url] is
    refused by [ensure_download] when the loop of [main] reaches it, with
    the error that names its id, and before anything is created, fetched
    or run for it: the world is the one the loop had reached. *)
Theorem missing_field_rejected_at_first_use rt release downloads_dir log_dir
    (m : gmap string json) rest binary results w :
  m !! "file" = None \/ m !! "url" = None ->
  run_fixtures rt release downloads_dir log_dir (JObj m :: rest) binary results w
    = (Raise (RuntimeError
                (missing_message rt (match m !! "id" with Some v => v | None => JNull end))),
       w)
  /\ ensure_download rt (JObj m) downloads_dir w
    = (Raise (RuntimeError
                (missing_message rt (match m !! "id" with Some v => v | None => JNull end))),
       w).
Proof.
  intros Hmissing.
  assert (ensure_download rt (JObj m) downloads_dir w
          = (Raise (RuntimeError
                (missing_message rt (match m !! "id" with Some v => v | None => JNull end))),
             w)) as Hreject.
  { eapply ensure_download_rejects; try apply py_get_dict.
    destruct Hmissing as [-> | ->]; [left|right]; reflexivity. }
  split; [|exact Hreject].
  simpl. unfold bind at 1. rewrite Hreject. reflexivity.
Qed.

(** C10: an empty [file] or [url] is refused like an absent one, with the
    same error and before the download directory is created or anything
    is fetched: the world is unchanged. *)
Theorem empty_field_rejected_as_missing rt downloads_dir (m : gmap string json) w :
  m !! "file" = Some (JStr "") \/ m !! "url" = Some (JStr "") ->
  ensure_download rt (JObj m) downloads_dir w
    = (Raise (RuntimeError
                (missing_message rt (match m !! "id" with Some v => v | None => JNull end))),
       w)
  /\ (m !! "file" = Some (JStr "") ->
      ensure_download rt (JObj m) downloads_dir w
        = ensure_download rt (JObj (delete "file" m)) downloads_dir w)
  /\ (m !! "url" = Some (JStr "") ->
      ensure_download rt (JObj m) downloads_dir w
        = ensure_download rt (JObj (delete "url" m)) downloads_dir w).
Proof.
  intros Hempty.
  assert (ensure_download rt (JObj m) downloads_dir w
          = (Raise (RuntimeError
                (missing_message rt (match m !! "id" with Some v => v | None => JNull end))),
             w)) as Hreject.
  { eapply ensure_download_rejects; try apply py_get_dict.
    destruct Hempty as [-> | ->]; [left|right]; reflexivity. }
  split; [exact Hreject|]. split; intros _; rewrite Hreject; symmetry.
  - erewrite ensure_download_rejects; try apply py_get_dict.
    + rewrite lookup_delete_ne by discriminate. reflexivity.
    + left. rewrite lookup_delete_eq. reflexivity.
  - erewrite ensure_download_rejects; try apply py_get_dict.
    + rewrite lookup_delete_ne by discriminate. reflexivity.
    + right. rewrite lookup_delete_eq. reflexivity.
Qed.

(** ** Effects of the harness functions *)

Section Effects.

Variable P : event -> Prop.

Lemma emits_ret {A} (a : A) : emits P (ret a).
Proof. intros w. split; [reflexivity|]. exists []. rewrite app_nil_r. auto. Qed.

Lemma emits_raise {A} e : emits P (@raise A e).
Proof. intros w. split; [reflexivity|]. exists []. rewrite app_nil_r. auto. Qed.

Lemma emits_lift {A} (o : outcome A) : emits P (lift o).
Proof. intros w. split; [reflexivity|]. exists []. rewrite app_nil_r. auto. Qed.

Lemma emits_get_host : emits P get_host.
Proof. intros w. split; [reflexivity|]. exists []. rewrite app_nil_r. auto. Qed.

Lemma emits_get_environ : emits P get_environ.
Proof. intros w. split; [reflexivity|]. exists []. rewrite app_nil_r. auto. Qed.

Lemma emits_put_host h : emits P (put_host h).
Proof. intros w. split; [reflexivity|]. exists []. simpl. rewrite app_nil_r. auto. Qed.

Lemma emits_emit e : P e -> emits P (emit e).
Proof. intros He w. split; [reflexivity|]. exists [e]. simpl. auto. Qed.

Lemma emits_bind {A B} (m : M A) (k : A -> M B) :
  emits P m -> (forall a, emits P (k a)) -> emits P (bind m k).
Proof.
  intros Hm Hk w. unfold bind.
  destruct (Hm w) as [Henv (evs & Htr & Hevs)].
  destruct (m w) as [[a|e] w1]; simpl in *.
  - destruct (Hk a w1) as [Henv' (evs' & Htr' & Hevs')].
    split; [congruence|].
    exists (evs ++ evs')%list. rewrite Htr', Htr, app_assoc.
    split; [reflexivity|]. apply Forall_app; auto.
  - split; [assumption|]. exists evs. auto.
Qed.

End Effects.

Ltac emits_step :=
  lazymatch goal with
  | |- emits _ (bind _ _) => apply emits_bind; [|intros ?]
  | |- emits _ (ret _) => apply emits_ret
  | |- emits _ (raise _) => apply emits_raise
  | |- emits _ (lift _) => apply emits_lift
  | |- emits _ get_host => apply emits_get_host
  | |- emits _ get_environ => apply emits_get_environ
  | |- emits _ (put_host _) => apply emits_put_host
  | |- emits _ (emit _) => apply emits_emit; exact I
  | |- emits _ (print _) => apply emits_emit; exact I
  | |- emits _ (if ?b then _ else _) => destruct b
  | |- emits _ (match ?x with _ => _ end) => destruct x
  end.

Ltac emits_auto := repeat emits_step.

Lemma emits_time_time P : emits P time_time.
Proof. unfold time_time. emits_auto. Qed.

Lemma emits_path_exists P p : emits P (path_exists p).
Proof. unfold path_exists. emits_auto. Qed.

Lemma emits_read_text P p : emits P (read_text p).
Proof. unfold read_text. emits_auto. Qed.

Lemma emits_write_file P rt p text : emits P (write_file rt p text).
Proof. unfold write_file. emits_auto. Qed.

Lemma emits_mkdir (P : event -> Prop) p : P (EvMkdir p) -> emits P (mkdir p).
Proof.
  intros HP. unfold mkdir.
  apply emits_bind; [apply emits_get_host|intros h].
  destruct (h_fs h !! p) as [[|data]|]; try apply emits_raise;
    (apply emits_bind; [apply emits_put_host|intros _; apply emits_emit; exact HP]).
Qed.

Lemma emits_subprocess_run (P : event -> Prop) rt cmd env :
  P (EvSpawn cmd env) -> emits P (subprocess_run rt cmd env).
Proof.
  intros HP. unfold subprocess_run.
  apply emits_bind; [apply emits_emit; exact HP|intros _]. emits_auto.
Qed.

Lemma emits_urlretrieve (P : event -> Prop) rt url target :
  (forall u, P (EvFetch u target)) -> emits P (urlretrieve rt url target).
Proof.
  intros HP. unfold urlretrieve. destruct url; try apply emits_raise.
  apply emits_bind; [apply emits_emit; apply HP|intros _]. emits_auto.
Qed.

Lemma emits_subprocess_run_text (P : event -> Prop) rt cmd env :
  P (EvSpawn cmd env) -> emits P (subprocess_run_text rt cmd env).
Proof.
  intros HP. unfold subprocess_run_text.
  apply emits_bind; [apply emits_subprocess_run; exact HP|intros proc]. emits_auto.
Qed.

Lemma emits_platform_platform (P : event -> Prop) rt :
  P EvPlatform -> emits P (platform_platform rt).
Proof.
  intros HP. unfold platform_platform.
  apply emits_bind; [apply emits_emit; exact HP|intros _]. emits_auto.
Qed.

Ltac emits_call :=
  lazymatch goal with
  | |- emits _ time_time => apply emits_time_time
  | |- emits _ (path_exists _) => apply emits_path_exists
  | |- emits _ (read_text _) => apply emits_read_text
  | |- emits _ (write_file _ _ _) => apply emits_write_file
  | |- emits _ (platform_platform _) => apply emits_platform_platform; exact I
  | |- emits _ (subprocess_run_text _ _ _) => apply emits_subprocess_run_text; exact I
  | |- emits _ (mkdir _) => apply emits_mkdir; exact I
  | |- emits _ (subprocess_run _ _ _) => apply emits_subprocess_run; exact I
  | |- emits _ (urlretrieve _ _ _) => apply emits_urlretrieve; intros; exact I
  end.

Create HintDb harness_effects.

Ltac emits_calls := repeat (emits_call || emits_step || solve [auto with harness_effects]).

Lemma emits_load_fixtures rt path : emits not_report (load_fixtures rt path).
Proof. unfold load_fixtures. emits_calls. Qed.

Lemma emits_ensure_download rt fixture downloads_dir :
  emits not_report (ensure_download rt fixture downloads_dir).
Proof. unfold ensure_download. emits_calls. Qed.

Lemma emits_build_binary rt release : emits not_report (build_binary rt release).
Proof. unfold build_binary. emits_calls. Qed.

Lemma emits_run_fixture rt binary fixture file_path log_dir :
  emits not_report (run_fixture rt binary fixture file_path log_dir).
Proof. unfold run_fixture. emits_calls. Qed.

#[local] Hint Resolve emits_load_fixtures emits_ensure_download emits_build_binary
  emits_run_fixture : harness_effects.

Lemma emits_run_fixtures rt release downloads_dir log_dir fixtures :
  forall binary results,
    emits not_report (run_fixtures rt release downloads_dir log_dir fixtures binary results).
Proof.
  induction fixtures as [|fixture rest IH]; intros binary results; simpl.
  - apply emits_ret.
  - emits_calls.
Qed.

#[local] Hint Resolve emits_run_fixtures : harness_effects.

Lemma emits_main_run rt args : emits not_report (main_run rt args).
Proof. unfold main_run. emits_calls. Qed.

(** ** Where an exception can leave [main] *)

Lemma emits_raises_only {A} P (m : M A) : emits P m -> raises_only P m.
Proof.
  intros Hm w e w' Hrun. destruct (Hm w) as [_ Hevs]. rewrite Hrun in Hevs. exact Hevs.
Qed.

Lemma raises_only_bind_l {A B} P (m : M A) (k : A -> M B) :
  emits P m -> (forall a, raises_only P (k a)) -> raises_only P (bind m k).
Proof.
  intros Hm Hk w e w' Hrun. unfold bind in Hrun.
  destruct (Hm w) as [_ (evs & Htr & Hevs)].
  destruct (m w) as [[a|e1] w1]; simpl in *.
  - destruct (Hk a w1 e w' Hrun) as (evs' & Htr' & Hevs').
    exists (evs ++ evs')%list. rewrite Htr', Htr, app_assoc.
    split; [reflexivity|]. apply Forall_app; auto.
  - injection Hrun as _ <-. exists evs. auto.
Qed.

Lemma raises_only_bind_r {A B} P (m : M A) (k : A -> M B) :
  raises_only P m -> (forall a, never_raises (k a)) -> raises_only P (bind m k).
Proof.
  intros Hm Hk w e w' Hrun. unfold bind in Hrun.
  destruct (m w) as [[a|e1] w1] eqn:Em.
  - destruct (Hk a w1) as (b & w2 & Hok). rewrite Hok in Hrun. discriminate.
  - injection Hrun as <- <-. exact (Hm w e1 w1 Em).
Qed.

Lemma never_raises_ret {A} (a : A) : never_raises (ret a).
Proof. intros w. exists a, w. reflexivity. Qed.

Lemma never_raises_emit e : never_raises (emit e).
Proof. intros w. eexists _, _. reflexivity. Qed.

Lemma never_raises_bind {A B} (m : M A) (k : A -> M B) :
  never_raises m -> (forall a, never_raises (k a)) -> never_raises (bind m k).
Proof.
  intros Hm Hk w. destruct (Hm w) as (a & w1 & Hok).
  unfold bind. rewrite Hok. apply Hk.
Qed.

Lemma never_raises_print_failures rt failures : never_raises (print_failures rt failures).
Proof.
  induction failures as [|failure rest IH]; simpl.
  - apply never_raises_ret.
  - apply never_raises_bind; [apply never_raises_emit|intros _; exact IH].
Qed.

Lemma raises_only_write_report rt results suite report_path :
  raises_only not_report (write_report rt results suite report_path).
Proof.
  unfold write_report.
  apply raises_only_bind_l; [apply emits_mkdir; exact I|intros _].
  apply raises_only_bind_l; [apply emits_platform_platform; exact I|intros platform_info].
  apply raises_only_bind_l; [apply emits_time_time|intros now].
  apply raises_only_bind_l; [apply emits_write_file|intros _].
  intros w e w' Hrun. discriminate.
Qed.

Lemma raises_only_main_finish rt args results :
  raises_only not_report (main_finish rt args results).
Proof.
  unfold main_finish.
  apply raises_only_bind_r; [apply raises_only_write_report|intros _].
  destruct (List.filter is_failure results).
  - apply never_raises_bind; [apply never_raises_emit|intros _; apply never_raises_ret].
  - apply never_raises_bind; [apply never_raises_emit|intros _].
    apply never_raises_bind; [apply never_raises_print_failures|intros _].
    apply never_raises_ret.
Qed.

Lemma raises_only_main rt args : raises_only not_report (main rt args).
Proof.
  unfold main. apply raises_only_bind_l; [apply emits_main_run|intros results].
  apply raises_only_main_finish.
Qed.

(** C4: when an exception leaves [main], whatever its kind, the process
    ends with status 1 and nothing the run has done is the writing of the
    report: the trace has grown by events that are not [EvWriteReport]. *)
Theorem fatal_error_exit_1_without_report rt args w e w' :
  main rt args w = (Raise e, w') ->
  fst (script rt args w) = 1
  /\ exists evs,
       w_trace (snd (script rt args w)) = (w_trace w ++ evs)%list
       /\ Forall not_report evs.
Proof.
  intros Hrun. unfold script. rewrite Hrun. simpl. split; [reflexivity|].
  destruct (raises_only_main rt args w e w' Hrun) as (evs & Htr & Hevs).
  exists (evs ++ [EvTraceback e])%list. rewrite Htr, app_assoc.
  split; [reflexivity|]. apply Forall_app. split; [exact Hevs|].
  constructor; [exact I|constructor].
Qed.

(** ** The status of a completed run *)

Lemma filter_failures_nil results :
  List.filter is_failure results = [] <-> Forall passed results.
Proof.
  induction results as [|r rest IH]; simpl.
  - split; [constructor|reflexivity].
  - unfold is_failure at 1, passed at 1.
    destruct (String.eqb (r_result r) "pass") eqn:E; simpl.
    + apply String.eqb_eq in E. rewrite IH. split.
      * intros H. constructor; assumption.
      * intros H. inversion H; assumption.
    + apply String.eqb_neq in E. split; [discriminate|].
      intros H. inversion H; contradiction.
Qed.

Lemma main_finish_code rt args results w code w' :
  main_finish rt args results w = (Ok code, w') ->
  code = (if decide (Forall passed results) then 0 else 1).
Proof.
  unfold main_finish, bind at 1.
  destruct (write_report rt results (a_suite args) (rt_path rt (a_report args)) w)
    as [[[]|e] w1]; [|discriminate].
  pose proof (filter_failures_nil results) as Hnil.
  destruct (List.filter is_failure results) as [|failure rest].
  - unfold bind, print, emit, ret. intros [= <- _].
    rewrite decide_True; [reflexivity|]. apply Hnil. reflexivity.
  - unfold bind at 1, print, emit. unfold bind.
    destruct (never_raises_print_failures rt (failure :: rest)
                {| w_host := w_host w1; w_environ := w_environ w1;
                   w_trace := (w_trace w1 ++ [EvPrint "Headless playback failures detected:"])%list |})
      as ([] & w2 & ->).
    unfold ret. intros [= <- _].
    rewrite decide_False; [reflexivity|]. intros H. apply Hnil in H. discriminate.
Qed.

(** C2: a run that completes has status 0 exactly when every result of
    its loop is [pass], and status 1 otherwise. *)
Theorem exit_code_law rt args w code w' :
  main rt args w = (Ok code, w') ->
  exists results w1,
    main_run rt args w = (Ok results, w1)
    /\ fst (script rt args w) = code
    /\ (code = 0 <-> Forall passed results)
    /\ (code <> 0 -> code = 1).
Proof.
  intros Hrun. unfold script. rewrite Hrun. simpl.
  unfold main, bind in Hrun.
  destruct (main_run rt args w) as [[results|e] w1]; [|discriminate].
  exists results, w1. split; [reflexivity|]. split; [reflexivity|].
  apply main_finish_code in Hrun. subst code.
  destruct (decide (Forall passed results)) as [Hall|Hsome].
  - split; [tauto|contradiction].
  - split; [split; [discriminate|contradiction]|reflexivity].
Qed.

(** ** The guard on an empty selection *)

Lemma load_fixtures_reads_only rt path w r w' :
  load_fixtures rt path w = (r, w') -> w' = w.
Proof.
  unfold load_fixtures, read_text. unfold bind, get_host, ret, raise, lift. simpl.
  destruct (h_fs (w_host w) !! path) as [[|data]|]; try (intros [= _ <-]; reflexivity).
  destruct (rt_json_loads rt data) as [value|]; [|intros [= _ <-]; reflexivity].
  destruct (py_get value "fixtures" (JArr [])) as [fixtures|e];
    [|intros [= _ <-]; reflexivity].
  destruct (negb (truthy fixtures)); intros [= _ <-]; reflexivity.
Qed.

(** C7: when the selection is empty, [main] raises the selection error in
    the world it was started in: no build and no download has run, the
    trace is the initial one. *)
Theorem empty_selection_guard rt args w fixtures selected w1 :
  load_fixtures rt (rt_path rt (a_fixtures args)) w = (Ok fixtures, w1) ->
  select_suite (a_suite args) fixtures = Ok selected ->
  truthy selected = false ->
  main rt args w = (Raise (RuntimeError "No fixtures selected for suite."), w)
  /\ List.filter is_step (w_trace (snd (main rt args w))) = List.filter is_step (w_trace w)
  /\ fst (script rt args w) = 1.
Proof.
  intros Hload Hsel Hempty.
  pose proof (load_fixtures_reads_only _ _ _ _ _ Hload) as ->.
  assert (main rt args w = (Raise (RuntimeError "No fixtures selected for suite."), w))
    as Hmain.
  { unfold main, main_run, bind at 1 2. rewrite Hload. unfold bind, lift.
    rewrite Hsel, Hempty. reflexivity. }
  split; [exact Hmain|]. unfold script. rewrite Hmain. split; reflexivity.
Qed.

(** ** The download cache *)

Lemma mkdir_ok p w :
  (forall data, h_fs (w_host w) !! p <> Some (File data)) ->
  mkdir p w = (Ok tt, {| w_host := set_fs (<[p := Dir]> (h_fs (w_host w))) (w_host w);
                         w_environ := w_environ w;
                         w_trace := (w_trace w ++ [EvMkdir p])%list |}).
Proof.
  intros Hdir. unfold mkdir. unfold bind, get_host. simpl.
  destruct (h_fs (w_host w) !! p) as [[|data]|] eqn:E; try reflexivity.
  destruct (Hdir data). reflexivity.
Qed.

Lemma ensure_download_hit rt fixture downloads_dir w filename url :
  py_get fixture "file" JNull = Ok (JStr filename) ->
  filename <> "" ->
  py_get fixture "url" JNull = Ok url ->
  truthy url = true ->
  (forall data, h_fs (w_host w) !! downloads_dir <> Some (File data)) ->
  is_Some (h_fs (w_host w) !! rt_joinpath rt downloads_dir filename) ->
  ensure_download rt fixture downloads_dir w
    = (Ok (rt_joinpath rt downloads_dir filename),
       {| w_host := set_fs (<[downloads_dir := Dir]> (h_fs (w_host w))) (w_host w);
          w_environ := w_environ w;
          w_trace := (w_trace w ++ [EvMkdir downloads_dir])%list |}).
Proof.
  intros Hfile Hname Hurl Htruthy Hdir Hcached.
  unfold ensure_download, bind at 1 2, lift. rewrite Hfile, Hurl, Htruthy. simpl.
  apply String.eqb_neq in Hname. rewrite Hname. simpl.
  unfold bind at 1. rewrite (mkdir_ok _ _ Hdir).
  unfold bind, lift, path_exists, get_host, ret. simpl.
  rewrite bool_decide_eq_true_2; [reflexivity|].
  rewrite lookup_insert. destruct (decide _); [eexists; reflexivity|exact Hcached].
Qed.

(** C5: for a fixture whose file is in the cache, [ensure_download]
    returns the cached path and has only made sure the directory exists (no
    fetch is in the trace, the collaborator has not touched the host), and
    a second call returns the same path in the same way. *)
Theorem ensure_download_cached rt fixture downloads_dir w filename url :
  py_get fixture "file" JNull = Ok (JStr filename) ->
  filename <> "" ->
  py_get fixture "url" JNull = Ok url ->
  truthy url = true ->
  (forall data, h_fs (w_host w) !! downloads_dir <> Some (File data)) ->
  is_Some (h_fs (w_host w) !! rt_joinpath rt downloads_dir filename) ->
  let target := rt_joinpath rt downloads_dir filename in
  let w1 := {| w_host := set_fs (<[downloads_dir := Dir]> (h_fs (w_host w))) (w_host w);
               w_environ := w_environ w;
               w_trace := (w_trace w ++ [EvMkdir downloads_dir])%list |} in
  ensure_download rt fixture downloads_dir w = (Ok target, w1)
  /\ (exists w2,
        ensure_download rt fixture downloads_dir w1 = (Ok target, w2)
        /\ w_host w2 = w_host w1
        /\ w_trace w2 = (w_trace w ++ [EvMkdir downloads_dir; EvMkdir downloads_dir])%list)
  /\ List.filter is_step (w_trace w1) = List.filter is_step (w_trace w).
Proof.
  intros Hfile Hname Hurl Htruthy Hdir Hcached target w1.
  split; [apply ensure_download_hit with (url := url); assumption|]. split.
  - eexists. split.
    + apply ensure_download_hit with (url := url); try assumption.
      * intros data. subst w1. simpl. rewrite lookup_insert_eq. discriminate.
      * subst w1. simpl. rewrite lookup_insert.
        destruct (decide _); [eexists; reflexivity|exact Hcached].
    + subst w1. simpl. rewrite insert_insert_eq, <- app_assoc. split; reflexivity.
  - subst w1. simpl. rewrite List.filter_app. simpl. apply app_nil_r.
Qed.

(** ** Running one fixture *)

Lemma bind_lift_ok {A B} (a : A) (k : A -> M B) w : bind (lift (Ok a)) k w = k a w.
Proof. reflexivity. Qed.

Lemma bind_lift_raise {A B} e (k : A -> M B) w : bind (lift (Raise e)) k w = (Raise e, w).
Proof. reflexivity. Qed.

Lemma bind_get_environ {B} (k : gmap string string -> M B) w :
  bind get_environ k w = k (w_environ w) w.
Proof. reflexivity. Qed.

Lemma bind_time_time {B} (k : Q -> M B) w :
  bind time_time k w = k (h_now (w_host w)) w.
Proof. reflexivity. Qed.

Lemma bind_emit {B} e (k : unit -> M B) w :
  bind (emit e) k w
    = k tt {| w_host := w_host w; w_environ := w_environ w;
              w_trace := (w_trace w ++ [e])%list |}.
Proof. reflexivity. Qed.

Lemma bind_subprocess_run {B} rt cmd env (k : Z * string -> M B) w :
  bind (subprocess_run rt cmd env) k w
    = let w1 := {| w_host := snd (rt_spawn rt cmd env (w_host w));
                   w_environ := w_environ w;
                   w_trace := (w_trace w ++ [EvSpawn cmd env])%list |} in
      match fst (rt_spawn rt cmd env (w_host w)) with
      | Some proc => k proc w1
      | None => (Raise OSError, w1)
      end.
Proof.
  unfold subprocess_run. unfold bind, emit, get_host, put_host, ret, raise. simpl.
  destruct (rt_spawn rt cmd env (w_host w)) as [[proc|] h1]; reflexivity.
Qed.

Lemma bind_subprocess_run_text {B} rt cmd env (k : Z * string -> M B) w :
  bind (subprocess_run_text rt cmd env) k w
    = let w1 := {| w_host := snd (rt_spawn rt cmd env (w_host w));
                   w_environ := w_environ w;
                   w_trace := (w_trace w ++ [EvSpawn cmd env])%list |} in
      match fst (rt_spawn rt cmd env (w_host w)) with
      | Some proc =>
          match rt_decode rt (snd proc) with
          | Some text => k (fst proc, text) w1
          | None => (Raise ValueError, w1)
          end
      | None => (Raise OSError, w1)
      end.
Proof.
  unfold subprocess_run_text, subprocess_run.
  unfold bind, emit, get_host, put_host, ret, raise. simpl.
  destruct (rt_spawn rt cmd env (w_host w)) as [[proc|] h1]; simpl; [|reflexivity].
  destruct (rt_decode rt (snd proc)); reflexivity.
Qed.

Lemma setdefault_other key value (env : gmap string string) other :
  other <> key -> setdefault key value env !! other = env !! other.
Proof.
  intros Hne. unfold setdefault. destruct (env !! key); [reflexivity|].
  apply lookup_insert_ne. congruence.
Qed.

Lemma setdefault_key key value (env : gmap string string) :
  setdefault key value env !! key
    = Some (match env !! key with Some v => v | None => value end).
Proof.
  unfold setdefault. destruct (env !! key) eqn:E; [exact E|apply lookup_insert_eq].
Qed.

(** C6: the player is started with [env], the caller's environment with
    [RUST_LOG] set to [info] only where the caller has no value for it;
    every other variable is the caller's, and the environment of the
    harness process is the same after the call as before. Either the call
    fails before the player is started (no [id], or [frames] is not a
    number) and the world is untouched, or the first event it adds is the
    start of the player with [env], and it starts nothing else. *)
Theorem subprocess_environment rt binary fixture file_path log_dir w :
  let env := setdefault "RUST_LOG" "info" (w_environ w) in
  let run := run_fixture rt binary fixture file_path log_dir w in
  (forall key, key <> "RUST_LOG" -> env !! key = w_environ w !! key)
  /\ env !! "RUST_LOG"
     = Some (match w_environ w !! "RUST_LOG" with Some v => v | None => "info" end)
  /\ w_environ (snd run) = w_environ w
  /\ ((exists e, (py_getitem fixture "id" = Raise e \/ frames_of rt fixture = Raise e)
                 /\ run = (Raise e, w))
      \/ (exists frames evs,
            frames_of rt fixture = Ok frames
            /\ w_trace (snd run)
               = (w_trace w ++ EvSpawn (player_cmd binary file_path frames) env :: evs)%list
            /\ Forall not_spawn evs)).
Proof.
  intros env run.
  split; [intros key Hkey; apply setdefault_other; exact Hkey|].
  split; [apply setdefault_key|].
  split; [apply (emits_run_fixture rt binary fixture file_path log_dir w)|].
  subst run. unfold run_fixture, frames_of.
  destruct (py_getitem fixture "id") as [fixture_id|e]; [|left; exists e; auto].
  rewrite bind_lift_ok.
  destruct (py_get fixture "frames" (JInt 60)) as [value|e]; [|left; exists e; auto].
  rewrite bind_lift_ok.
  destruct (py_int rt value) as [frames|e]; [|left; exists e; auto].
  rewrite bind_lift_ok, bind_get_environ, bind_time_time, bind_subprocess_run_text.
  right. exists frames. fold env. fold (player_cmd binary file_path frames). cbv zeta.
  destruct (fst (rt_spawn rt (player_cmd binary file_path frames) env (w_host w)))
    as [proc|]; [destruct (rt_decode rt (snd proc)) as [text|]|].
  - lazymatch goal with
    | |- context [snd (?m ?w1)] =>
        assert (emits not_spawn m) as Htail by emits_calls;
        destruct (Htail w1) as [_ (evs & Htr & Hevs)]
    end.
    exists evs. split; [reflexivity|]. rewrite Htr. simpl.
    rewrite <- app_assoc. split; [reflexivity|exact Hevs].
  - exists []. split; [reflexivity|]. split; [reflexivity|constructor].
  - exists []. split; [reflexivity|]. split; [reflexivity|constructor].
Qed.






Example format_2f_samples :
  format_2f (5 # 4) = "1.25" /\ format_2f (1 # 8) = "0.12" /\ format_2f (3 # 8) = "0.38"
  /\ format_2f (-1 # 1000) = "-0.00" /\ format_2f (1999 # 1000) = "2.00".
Proof. repeat split; reflexivity. Qed.

Lemma bind_mkdir {B} p (k : unit -> M B) w :
  (forall data, h_fs (w_host w) !! p <> Some (File data)) ->
  bind (mkdir p) k w
    = k tt {| w_host := set_fs (<[p := Dir]> (h_fs (w_host w))) (w_host w);
              w_environ := w_environ w;
              w_trace := (w_trace w ++ [EvMkdir p])%list |}.
Proof. intros Hdir. unfold bind at 1. rewrite (mkdir_ok _ _ Hdir). reflexivity. Qed.


Lemma write_file_ok_inv rt p text w w' :
  write_file rt p text w = (Ok tt, w') ->
  w' = {| w_host := set_fs (<[p := File text]> (h_fs (w_host w))) (w_host w);
          w_environ := w_environ w;
          w_trace := w_trace w |}.
Proof.
  unfold write_file. unfold bind, get_host, put_host, raise. simpl.
  destruct (h_fs (w_host w) !! p) as [[|data]|];
    destruct (h_fs (w_host w) !! rt_parent rt p) as [[|data']|];
    intros [= <-]; reflexivity.
Qed.

Lemma mkdir_ok_inv p w w' :
  mkdir p w = (Ok tt, w') ->
  w' = {| w_host := set_fs (<[p := Dir]> (h_fs (w_host w))) (w_host w);
          w_environ := w_environ w;
          w_trace := (w_trace w ++ [EvMkdir p])%list |}.
Proof.
  unfold mkdir. unfold bind, get_host, put_host, emit, raise. simpl.
  destruct (h_fs (w_host w) !! p) as [[|data]|]; intros [= <-]; reflexivity.
Qed.

Lemma bind_ok_inv {A B} (m : M A) (k : A -> M B) w b w' :
  bind m k w = (Ok b, w') ->
  exists a w1, m w = (Ok a, w1) /\ k a w1 = (Ok b, w').
Proof.
  unfold bind. destruct (m w) as [[a|e] w1]; [|discriminate].
  intros Hk. exists a, w1. auto.
Qed.

Lemma lift_ok_inv {A} (o : outcome A) w a w' : lift o w = (Ok a, w') -> o = Ok a /\ w' = w.
Proof. unfold lift. intros [= -> ->]. auto. Qed.





(** ** The [full] suite *)

Lemma load_fixtures_truthy rt path w fixtures w1 :
  load_fixtures rt path w = (Ok fixtures, w1) -> truthy fixtures = true.
Proof.
  unfold load_fixtures, read_text. unfold bind, get_host, ret, raise, lift. simpl.
  destruct (h_fs (w_host w) !! path) as [[|data]|]; try discriminate.
  destruct (rt_json_loads rt data) as [value|]; [|discriminate].
  destruct (py_get value "fixtures" (JArr [])) as [loaded|e]; [|discriminate].
  destruct (truthy loaded) eqn:E; simpl; [|discriminate].
  intros [= <- _]. exact E.
Qed.

(** C9: with [full] no filter runs: the selection is the loaded catalog
    itself, whatever the tags of its fixtures, and the loop of [main] runs
    over all of it. *)
Theorem full_suite_selects_whole_catalog rt args w fixtures w1 :
  a_suite args = "full" ->
  load_fixtures rt (rt_path rt (a_fixtures args)) w = (Ok fixtures, w1) ->
  select_suite (a_suite args) fixtures = Ok fixtures
  /\ main_run rt args w
     = (binary <- (if negb (a_skip_build args)
                   then b <- build_binary rt (a_release args) ;; ret (Some b)
                   else ret None) ;;
        items <- lift (py_iter fixtures) ;;
        run_fixtures rt (a_release args) (rt_path rt "slain-player/fixtures/downloads")
          (rt_path rt (a_log_dir args)) items binary []) w.
Proof.
  intros Hsuite Hload. rewrite Hsuite. split; [reflexivity|].
  pose proof (load_fixtures_truthy _ _ _ _ _ Hload) as Htruthy.
  pose proof (load_fixtures_reads_only _ _ _ _ _ Hload) as ->.
  unfold main_run. unfold bind at 1. rewrite Hload, Hsuite.
  change (select_suite "full" fixtures) with (Ok fixtures).
  rewrite bind_lift_ok, Htruthy. reflexivity.
Qed.

(** ** Runs on the concrete runtime *)

(** C3 as stated fails: the catalog [a], [c] loads although [c] has no
    [url]; the error for [c] comes after the build, the download of
    [a.mp4] and the run of the player on it. *)
Lemma missing_url_found_after_build_and_run :
  let rt := demo_runtime (scenario [fixture_a; fixture_c] 0 "ok") in
  let args := demo_args "full" false in
  load_fixtures rt "matrix.json" demo_world = (Ok (JArr [fixture_a; fixture_c]), demo_world)
  /\ fst (main rt args demo_world) = Raise (RuntimeError "Fixture c missing file or url.")
  /\ List.filter is_step (w_trace (snd (main rt args demo_world)))
     = [EvSpawn ["cargo"; "build"; "-p"; "slain-player"] (w_environ demo_world);
        EvFetch "http://x/a.mp4" "slain-player/fixtures/downloads/a.mp4";
        EvSpawn (player_cmd "target/debug/slain" "slain-player/fixtures/downloads/a.mp4" 60)
          (setdefault "RUST_LOG" "info" (w_environ demo_world))]
  /\ List.filter is_step (w_trace (snd (main rt args demo_world))) <> [].
Proof.
  cbv zeta. split; [vm_compute; reflexivity|]. split; [vm_compute; reflexivity|].
  assert (List.filter is_step
            (w_trace (snd (main (demo_runtime (scenario [fixture_a; fixture_c] 0 "ok"))
                             (demo_args "full" false) demo_world)))
          = [EvSpawn ["cargo"; "build"; "-p"; "slain-player"] (w_environ demo_world);
             EvFetch "http://x/a.mp4" "slain-player/fixtures/downloads/a.mp4";
             EvSpawn
               (player_cmd "target/debug/slain" "slain-player/fixtures/downloads/a.mp4" 60)
               (setdefault "RUST_LOG" "info" (w_environ demo_world))]) as Hsteps
    by (vm_compute; reflexivity).
  split; [exact Hsteps|]. rewrite Hsteps. discriminate.
Qed.

Example run_smoke_passes :
  let rt := demo_runtime (scenario [fixture_b; fixture_a] 0 "ok") in
  let run := script rt (demo_args "smoke" false) demo_world in
  fst run = 0
  /\ List.filter is_step (w_trace (snd run))
     = [EvSpawn ["cargo"; "build"; "-p"; "slain-player"] (w_environ demo_world);
        EvFetch "http://x/a.mp4" "slain-player/fixtures/downloads/a.mp4";
        EvSpawn (player_cmd "target/debug/slain" "slain-player/fixtures/downloads/a.mp4" 60)
          (setdefault "RUST_LOG" "info" (w_environ demo_world))]
  /\ existsb is_report (w_trace (snd run)) = true.
Proof. vm_compute. repeat split; reflexivity. Qed.

Example run_with_failing_player :
  let rt := demo_runtime (scenario [fixture_a; fixture_b] 3 "boom") in
  let run := script rt (demo_args "full" false) demo_world in
  fst run = 1
  /\ existsb is_report (w_trace (snd run)) = true
  /\ h_fs (w_host (snd run)) !! "artifacts/headless-logs/a.log"
     = Some (File (log_text rt (JStr "a") JNull JNull "slain-player/fixtures/downloads/a.mp4"
                     60 3 (5 # 4) "boom")).
Proof. vm_compute. repeat split; reflexivity. Qed.

Example fatal_empty_catalog :
  fatal_run (scenario [] 0 "ok") "full" (RuntimeError "No fixtures found in matrix file.").
Proof. vm_compute. repeat split; reflexivity. Qed.

Example fatal_empty_selection :
  fatal_run (scenario [fixture_b] 0 "ok") "smoke"
    (RuntimeError "No fixtures selected for suite.").
Proof. vm_compute. repeat split; reflexivity. Qed.

Example fatal_build_failure :
  fatal_run {| d_matrix := matrix_of [fixture_a]; d_cargo_code := 101;
               d_cargo_leaves_binary := false; d_player_code := 0;
               d_player_output := "ok"; d_online := true |}
    "full" (CalledProcessError 101).
Proof. vm_compute. repeat split; reflexivity. Qed.

Example fatal_missing_binary :
  fatal_run {| d_matrix := matrix_of [fixture_a]; d_cargo_code := 0;
               d_cargo_leaves_binary := false; d_player_code := 0;
               d_player_output := "ok"; d_online := true |}
    "full" (RuntimeError "Expected binary not found at target/debug/slain").
Proof. vm_compute. repeat split; reflexivity. Qed.

Example fatal_download_failure :
  fatal_run {| d_matrix := matrix_of [fixture_a]; d_cargo_code := 0;
               d_cargo_leaves_binary := true; d_player_code := 0;
               d_player_output := "ok"; d_online := false |}
    "full" OSError.
Proof. vm_compute. repeat split; reflexivity. Qed.

(** ** Instances of the theorems *)

Lemma select_suite_smoke_filters_witness :
  select_suite "smoke" (JArr [fixture_b; fixture_a; fixture_c]) = Ok (JArr [fixture_a])
  /\ select_suite "full" (JArr [fixture_b; fixture_a]) = Ok (JArr [fixture_b; fixture_a]).
Proof.
  destruct (select_suite_smoke_filters [fixture_b; fixture_a; fixture_c])
    as (Hsmoke & _ & _ & Hother).
  split; [exact Hsmoke|]. apply Hother. discriminate.
Defined.

Lemma exit_code_law_witness :
  let rt := demo_runtime (scenario [fixture_b; fixture_a] 0 "ok") in
  let args := demo_args "smoke" false in
  exists results w1,
    main_run rt args demo_world = (Ok results, w1)
    /\ fst (script rt args demo_world) = 0
    /\ (0 = 0 <-> Forall passed results)
    /\ (0 <> 0 -> 0 = 1).
Proof.
  cbv zeta.
  apply (exit_code_law (demo_runtime (scenario [fixture_b; fixture_a] 0 "ok"))
           (demo_args "smoke" false) demo_world 0
           (snd (main (demo_runtime (scenario [fixture_b; fixture_a] 0 "ok"))
                   (demo_args "smoke" false) demo_world))).
  vm_compute. reflexivity.
Defined.

Lemma missing_field_rejected_at_first_use_witness :
  fields_c !! "url" = None
  /\ ensure_download (demo_runtime (scenario [fixture_a; fixture_c] 0 "ok")) fixture_c
       "slain-player/fixtures/downloads" warm_world
     = (Raise (RuntimeError "Fixture c missing file or url."), warm_world).
Proof.
  split; [reflexivity|].
  destruct (missing_field_rejected_at_first_use
              (demo_runtime (scenario [fixture_a; fixture_c] 0 "ok")) false
              "slain-player/fixtures/downloads" "artifacts/headless-logs" fields_c [] None []
              warm_world) as [_ Hreject].
  - right. reflexivity.
  - exact Hreject.
Defined.

Lemma fatal_error_exit_1_without_report_witness :
  let rt := demo_runtime {| d_matrix := matrix_of [fixture_a]; d_cargo_code := 0;
                            d_cargo_leaves_binary := true; d_player_code := 0;
                            d_player_output := "ok"; d_online := false |} in
  let args := demo_args "full" false in
  fst (main rt args demo_world) = Raise OSError
  /\ fst (script rt args demo_world) = 1.
Proof.
  cbv zeta. split; [vm_compute; reflexivity|].
  eapply (fatal_error_exit_1_without_report _ _ demo_world OSError).
  vm_compute. reflexivity.
Defined.

Lemma ensure_download_cached_witness :
  let rt := demo_runtime (scenario [fixture_a] 0 "ok") in
  is_Some (h_fs (w_host warm_world) !! "slain-player/fixtures/downloads/a.mp4")
  /\ fst (ensure_download rt fixture_a "slain-player/fixtures/downloads" warm_world)
     = Ok "slain-player/fixtures/downloads/a.mp4".
Proof.
  cbv zeta. split; [eexists; reflexivity|].
  destruct (ensure_download_cached (demo_runtime (scenario [fixture_a] 0 "ok")) fixture_a
              "slain-player/fixtures/downloads" warm_world "a.mp4" (JStr "http://x/a.mp4"))
    as [Hfirst _].
  - reflexivity.
  - discriminate.
  - reflexivity.
  - reflexivity.
  - intros data. vm_compute. discriminate.
  - eexists. reflexivity.
  - rewrite Hfirst. reflexivity.
Defined.

Lemma subprocess_environment_witness :
  let rt := demo_runtime (scenario [fixture_a] 0 "ok") in
  let run := run_fixture rt "target/debug/slain" fixture_a
               "slain-player/fixtures/downloads/a.mp4" "artifacts/headless-logs"
               warm_world in
  setdefault "RUST_LOG" "info" (w_environ warm_world) !! "PATH" = Some "/usr/bin"
  /\ w_environ (snd run) = w_environ warm_world.
Proof.
  cbv zeta.
  destruct (subprocess_environment (demo_runtime (scenario [fixture_a] 0 "ok"))
              "target/debug/slain" fixture_a "slain-player/fixtures/downloads/a.mp4"
              "artifacts/headless-logs" warm_world) as (Hother & _ & Hsame & _).
  split; [|exact Hsame]. rewrite Hother by discriminate. reflexivity.
Defined.

Lemma empty_selection_guard_witness :
  let rt := demo_runtime (scenario [fixture_b] 0 "ok") in
  let args := demo_args "smoke" false in
  select_suite "smoke" (JArr [fixture_b]) = Ok (JArr [])
  /\ main rt args demo_world
     = (Raise (RuntimeError "No fixtures selected for suite."), demo_world).
Proof.
  cbv zeta. split; [reflexivity|].
  apply (empty_selection_guard (demo_runtime (scenario [fixture_b] 0 "ok"))
           (demo_args "smoke" false) demo_world (JArr [fixture_b]) (JArr []) demo_world);
    reflexivity.
Defined.


Lemma full_suite_selects_whole_catalog_witness :
  let rt := demo_runtime (scenario [fixture_a; fixture_b] 0 "ok") in
  load_fixtures rt "matrix.json" demo_world = (Ok (JArr [fixture_a; fixture_b]), demo_world)
  /\ select_suite "full" (JArr [fixture_a; fixture_b]) = Ok (JArr [fixture_a; fixture_b]).
Proof.
  cbv zeta. split; [vm_compute; reflexivity|].
  apply (full_suite_selects_whole_catalog
           (demo_runtime (scenario [fixture_a; fixture_b] 0 "ok")) (demo_args "full" false)
           demo_world (JArr [fixture_a; fixture_b]) demo_world).
  - reflexivity.
  - vm_compute. reflexivity.
Defined.

Lemma empty_field_rejected_as_missing_witness :
  fields_e !! "file" = Some (JStr "")
  /\ ensure_download (demo_runtime (scenario [fixture_a] 0 "ok")) (JObj fields_e)
       "slain-player/fixtures/downloads" demo_world
     = (Raise (RuntimeError "Fixture e missing file or url."), demo_world).
Proof.
  split; [reflexivity|].
  destruct (empty_field_rejected_as_missing (demo_runtime (scenario [fixture_a] 0 "ok"))
              "slain-player/fixtures/downloads" fields_e demo_world) as [Hreject _].
  - left. reflexivity.
  - exact Hreject.
Defined.

(** * Further properties of the harness *)

(** ** Loading the matrix *)

(** [load_fixtures] succeeds exactly when the file is there, parses to a
    dictionary and has a non-empty [fixtures] value, which it returns; it
    leaves the world as it was. *)
Theorem load_fixtures_ok_iff rt path w fixtures w' :
  load_fixtures rt path w = (Ok fixtures, w')
  <-> w' = w
      /\ exists text m,
           h_fs (w_host w) !! path = Some (File text)
           /\ rt_json_loads rt text = Some (JObj m)
           /\ m !! "fixtures" = Some fixtures
           /\ truthy fixtures = true.
Proof.
  unfold load_fixtures, read_text. unfold bind, get_host, ret, raise, lift. simpl.
  split.
  - destruct (h_fs (w_host w) !! path) as [[|text]|]; try discriminate.
    destruct (rt_json_loads rt text) as [value|] eqn:Hjson; [|discriminate].
    destruct value as [| | | | | |m]; try discriminate. simpl.
    destruct (m !! "fixtures") as [loaded|] eqn:Hkey; [|discriminate].
    destruct (truthy loaded) eqn:E; simpl; [|discriminate].
    intros [= <- <-]. split; [reflexivity|]. exists text, m. auto.
  - intros [-> (text & m & -> & -> & Hkey & Htruthy)]. simpl.
    rewrite Hkey, Htruthy. reflexivity.
Qed.

(** A matrix without [fixtures], or with an empty or null one, is the
    error "No fixtures found in matrix file.". *)
Theorem load_fixtures_empty rt path w text (m : gmap string json) :
  h_fs (w_host w) !! path = Some (File text) ->
  rt_json_loads rt text = Some (JObj m) ->
  (m !! "fixtures" = None \/ exists v, m !! "fixtures" = Some v /\ truthy v = false) ->
  load_fixtures rt path w = (Raise (RuntimeError "No fixtures found in matrix file."), w).
Proof.
  intros Hfile Hjson Hempty.
  unfold load_fixtures, read_text. unfold bind, get_host, ret, raise, lift. simpl.
  rewrite Hfile, Hjson. simpl.
  destruct Hempty as [-> | (v & -> & ->)]; reflexivity.
Qed.

(** A matrix whose top level is not a dictionary has no [get]. *)
Theorem load_fixtures_not_dict rt path w text value :
  h_fs (w_host w) !! path = Some (File text) ->
  rt_json_loads rt text = Some value ->
  is_dict value = false ->
  load_fixtures rt path w = (Raise AttributeError, w).
Proof.
  intros Hfile Hjson Hdict.
  unfold load_fixtures, read_text. unfold bind, get_host, ret, raise, lift. simpl.
  rewrite Hfile, Hjson. destruct value; try reflexivity. discriminate.
Qed.

(** ** Downloads *)

Lemma bind_path_exists {B} p (k : bool -> M B) w :
  bind (path_exists p) k w = k (bool_decide (is_Some (h_fs (w_host w) !! p))) w.
Proof. reflexivity. Qed.

Lemma ensure_download_checked rt fixture downloads_dir w filename url :
  py_get fixture "file" JNull = Ok filename ->
  py_get fixture "url" JNull = Ok url ->
  truthy filename = true ->
  truthy url = true ->
  (forall data, h_fs (w_host w) !! downloads_dir <> Some (File data)) ->
  ensure_download rt fixture downloads_dir w
    = (target_path <- lift (joinpath rt downloads_dir filename) ;;
       present <- path_exists target_path ;;
       if present then ret target_path
       else
         id <- lift (py_getitem fixture "id") ;;
         print (download_message rt id url) ;;;
         urlretrieve rt url target_path ;;;
         ret target_path)
        {| w_host := set_fs (<[downloads_dir := Dir]> (h_fs (w_host w))) (w_host w);
           w_environ := w_environ w;
           w_trace := (w_trace w ++ [EvMkdir downloads_dir])%list |}.
Proof.
  intros Hfile Hurl Hname Htruthy Hdir.
  unfold ensure_download. rewrite Hfile, bind_lift_ok, Hurl, bind_lift_ok, Hname, Htruthy.
  cbn [negb orb]. rewrite bind_mkdir by exact Hdir. reflexivity.
Qed.


(** A [file] that is not a string (a number, a list) passes the presence
    check and fails when the path is built: the directory has been made,
    nothing is fetched. *)
Theorem ensure_download_file_not_string rt fixture downloads_dir w filename url :
  py_get fixture "file" JNull = Ok filename ->
  py_get fixture "url" JNull = Ok url ->
  truthy filename = true ->
  truthy url = true ->
  (forall s, filename <> JStr s) ->
  (forall data, h_fs (w_host w) !! downloads_dir <> Some (File data)) ->
  ensure_download rt fixture downloads_dir w
    = (Raise TypeError,
       {| w_host := set_fs (<[downloads_dir := Dir]> (h_fs (w_host w))) (w_host w);
          w_environ := w_environ w;
          w_trace := (w_trace w ++ [EvMkdir downloads_dir])%list |}).
Proof.
  intros Hfile Hurl Hname Htruthy Hstr Hdir.
  rewrite (ensure_download_checked rt fixture downloads_dir w filename url) by assumption.
  destruct filename; try reflexivity. destruct (Hstr s). reflexivity.
Qed.


(** Whatever the fixture and the world, [ensure_download] makes the
    directory, announces and fetches in that order and stops at some point
    of it: at most one fetch, nothing started, no file of the harness
    written. *)
Theorem ensure_download_events rt fixture downloads_dir w :
  exists evs msg u target,
    w_trace (snd (ensure_download rt fixture downloads_dir w)) = (w_trace w ++ evs)%list
    /\ evs `prefix_of` [EvMkdir downloads_dir; EvPrint msg; EvFetch u target].
Proof.
  unfold ensure_download, mkdir, path_exists, print, urlretrieve.
  unfold bind, lift, emit, get_host, put_host, ret, raise. simpl.
  repeat case_match; simplify_eq/=;
    first
      [ exists [], "", "", ""; split; [symmetry; apply app_nil_r|eexists; reflexivity]
      | exists [EvMkdir downloads_dir], "", "", ""; split; [reflexivity|eexists; reflexivity]
      | eexists [EvMkdir downloads_dir; EvPrint _], _, "", ""; split;
          [rewrite <- !app_assoc; reflexivity|eexists; reflexivity]
      | eexists [EvMkdir downloads_dir; EvPrint _; EvFetch _ _], _, _, _; split;
          [rewrite <- !app_assoc; reflexivity|eexists; symmetry; apply app_nil_r] ].
Qed.

(** ** The build *)

Lemma elem_of_cargo_cmd release : "--release" ∈ cargo_cmd release <-> release = true.
Proof.
  destruct release; simpl.
  - split; [reflexivity|]. intros _. unfold cargo_cmd. simpl. set_solver.
  - split; [|discriminate]. unfold cargo_cmd. simpl.
    rewrite !elem_of_cons. intros [H|[H|[H|[H|H]]]]; try discriminate.
    inversion H.
Qed.

(** [build_binary] starts cargo once, with [--release] exactly in release
    mode and with the environment of the caller as it is, and does nothing
    else. It returns the path of the build mode only when cargo returned 0
    and the binary is there; a non-zero return code is the error of the
    build, whether or not a binary exists, and a missing binary after a
    good build is the error "Expected binary not found". *)
Theorem build_binary_contract rt release w :
  let spawned := rt_spawn rt (cargo_cmd release) (w_environ w) (w_host w) in
  let run := build_binary rt release w in
  snd run = {| w_host := snd spawned;
               w_environ := w_environ w;
               w_trace := (w_trace w ++ [EvSpawn (cargo_cmd release) (w_environ w)])%list |}
  /\ ("--release" ∈ cargo_cmd release <-> release = true)
  /\ (forall b, fst run = Ok b <->
        b = binary_path rt release
        /\ is_Some (h_fs (snd spawned) !! binary_path rt release)
        /\ exists output, fst spawned = Some (0, output))
  /\ (forall returncode output,
        fst spawned = Some (returncode, output) -> returncode <> 0 ->
        fst run = Raise (CalledProcessError returncode))
  /\ (forall output,
        fst spawned = Some (0, output) ->
        h_fs (snd spawned) !! binary_path rt release = None ->
        fst run = Raise (RuntimeError
                           ("Expected binary not found at " +:+ binary_path rt release))).
Proof.
  intros spawned run.
  assert (run = let w1 := {| w_host := snd spawned; w_environ := w_environ w;
                             w_trace := (w_trace w ++ [EvSpawn (cargo_cmd release)
                                                         (w_environ w)])%list |} in
                (match fst spawned with
                 | None => Raise OSError
                 | Some proc =>
                     if negb (Z.eqb (fst proc) 0) then Raise (CalledProcessError (fst proc))
                     else if bool_decide (is_Some (h_fs (snd spawned) !! binary_path rt release))
                          then Ok (binary_path rt release)
                          else Raise (RuntimeError ("Expected binary not found at "
                                                    +:+ binary_path rt release))
                 end, w1)) as Hrun.
  { subst run. unfold build_binary. fold (cargo_cmd release).
    rewrite bind_get_environ, bind_subprocess_run. cbv zeta. fold spawned.
    destruct (fst spawned) as [[returncode output]|]; [|reflexivity]. cbn [fst snd].
    destruct (Z.eqb returncode 0); cbn [negb]; [|reflexivity].
    rewrite bind_path_exists. cbn [w_host].
    destruct (bool_decide _); reflexivity. }
  cbv zeta in Hrun. rewrite Hrun. simpl.
  split; [reflexivity|]. split; [apply elem_of_cargo_cmd|]. split; [|split].
  - intros b. destruct (fst spawned) as [[returncode output]|]; simpl.
    + destruct (Z.eqb_spec returncode 0) as [->|Hrc]; simpl.
      * destruct (bool_decide_reflect
                    (is_Some (h_fs (snd spawned) !! binary_path rt release))) as [Hex|Hno].
        -- split; [intros [= <-]; eauto|intros (-> & _ & _); reflexivity].
        -- split; [discriminate|intros (_ & Hex & _); contradiction].
      * split; [discriminate|]. intros (_ & _ & out & [= ? _]). contradiction.
    + split; [discriminate|]. intros (_ & _ & out & ?). discriminate.
  - intros returncode output -> Hrc. simpl.
    apply Z.eqb_neq in Hrc. rewrite Hrc. reflexivity.
  - intros output -> Hno. simpl.
    rewrite bool_decide_eq_false_2; [reflexivity|].
    rewrite Hno. intros [x Hx]. discriminate.
Qed.

(** ** Edge cases of a fixture run *)

Lemma run_fixture_started rt binary fixture file_path log_dir w fixture_id frames :
  py_getitem fixture "id" = Ok fixture_id ->
  frames_of rt fixture = Ok frames ->
  let env := setdefault "RUST_LOG" "info" (w_environ w) in
  let cmd := player_cmd binary file_path frames in
  let w1 := {| w_host := snd (rt_spawn rt cmd env (w_host w));
               w_environ := w_environ w;
               w_trace := (w_trace w ++ [EvSpawn cmd env])%list |} in
  (fst (rt_spawn rt cmd env (w_host w)) = None ->
   run_fixture rt binary fixture file_path log_dir w = (Raise OSError, w1))
  /\ exists evs,
       w_trace (snd (run_fixture rt binary fixture file_path log_dir w))
         = (w_trace w ++ EvSpawn cmd env :: evs)%list.
Proof.
  intros Hid Hframes env cmd w1. unfold frames_of in Hframes.
  destruct (py_get fixture "frames" (JInt 60)) as [value|] eqn:Hvalue; [|discriminate].
  unfold run_fixture.
  rewrite Hid, bind_lift_ok, Hvalue, bind_lift_ok, Hframes, bind_lift_ok.
  rewrite bind_get_environ, bind_time_time, bind_subprocess_run_text. cbv zeta.
  fold env. fold (player_cmd binary file_path frames). fold cmd. fold w1.
  destruct (fst (rt_spawn rt cmd env (w_host w))) as [proc|];
    [destruct (rt_decode rt (snd proc)) as [text|]|].
  - split; [discriminate|].
    lazymatch goal with
    | |- context [snd (?m w1)] =>
        assert (emits not_spawn m) as Htail by emits_calls;
        destruct (Htail w1) as [_ (evs & Htr & _)]
    end.
    exists evs. rewrite Htr. simpl. rewrite <- app_assoc. reflexivity.
  - split; [discriminate|]. exists []. reflexivity.
  - split; [reflexivity|]. exists []. reflexivity.
Qed.

(** [int(fixture.get("frames", 60))]: without [frames] the player is
    asked for 60 frames; a fractional count is cut toward zero; a [frames]
    that is null is a [TypeError], raised before the player is started. *)
Theorem run_fixture_frames rt binary (m : gmap string json) file_path log_dir w fixture_id :
  m !! "id" = Some fixture_id ->
  let env := setdefault "RUST_LOG" "info" (w_environ w) in
  let run := run_fixture rt binary (JObj m) file_path log_dir w in
  (m !! "frames" = None ->
   exists evs,
     w_trace (snd run) = (w_trace w ++ EvSpawn (player_cmd binary file_path 60) env :: evs)%list)
  /\ (forall q, m !! "frames" = Some (JFloat (FFinite q)) ->
      exists evs,
        w_trace (snd run)
          = (w_trace w ++ EvSpawn (player_cmd binary file_path (Qtrunc q)) env :: evs)%list)
  /\ (m !! "frames" = Some JNull -> run = (Raise TypeError, w)).
Proof.
  intros Hid env run.
  assert (py_getitem (JObj m) "id" = Ok fixture_id) as Hitem.
  { simpl. rewrite Hid. reflexivity. }
  split; [|split].
  - intros Hframes.
    apply (run_fixture_started rt binary (JObj m) file_path log_dir w fixture_id 60 Hitem).
    unfold frames_of. simpl. rewrite Hframes. reflexivity.
  - intros q Hframes.
    apply (run_fixture_started rt binary (JObj m) file_path log_dir w fixture_id (Qtrunc q)
             Hitem).
    unfold frames_of. simpl. rewrite Hframes. reflexivity.
  - intros Hframes. subst run. unfold run_fixture.
    rewrite Hitem, bind_lift_ok. cbn [py_get]. rewrite Hframes, bind_lift_ok. reflexivity.
Qed.

(** When the player cannot be started the exception leaves [run_fixture]
    at once: the log directory is not made and no log is written, so the
    fixture is not recorded as a failure. *)
Theorem run_fixture_player_not_started rt binary fixture file_path log_dir w
    fixture_id frames :
  let env := setdefault "RUST_LOG" "info" (w_environ w) in
  let cmd := player_cmd binary file_path frames in
  py_getitem fixture "id" = Ok fixture_id ->
  frames_of rt fixture = Ok frames ->
  fst (rt_spawn rt cmd env (w_host w)) = None ->
  run_fixture rt binary fixture file_path log_dir w
    = (Raise OSError,
       {| w_host := snd (rt_spawn rt cmd env (w_host w));
          w_environ := w_environ w;
          w_trace := (w_trace w ++ [EvSpawn cmd env])%list |}).
Proof.
  intros env cmd Hid Hframes Hspawn.
  apply (run_fixture_started rt binary fixture file_path log_dir w fixture_id frames
           Hid Hframes).
  exact Hspawn.
Qed.

(** ** The results of the loop *)

Lemma run_fixture_ok_inv rt binary fixture file_path log_dir w r w' :
  run_fixture rt binary fixture file_path log_dir w = (Ok r, w') ->
  result_of rt log_dir fixture r.
Proof.
  intros Hrun. unfold run_fixture in Hrun.
  apply bind_ok_inv in Hrun as (fixture_id & w1 & [Hid _]%lift_ok_inv & Hrun).
  apply bind_ok_inv in Hrun as (value & w2 & [Hvalue _]%lift_ok_inv & Hrun).
  apply bind_ok_inv in Hrun as (frames & w3 & [Hframes _]%lift_ok_inv & Hrun).
  apply bind_ok_inv in Hrun as (environ & w4 & _ & Hrun).
  apply bind_ok_inv in Hrun as (start & w5 & _ & Hrun).
  apply bind_ok_inv in Hrun as (proc & w6 & _ & Hrun).
  apply bind_ok_inv in Hrun as (finish & w7 & _ & Hrun).
  apply bind_ok_inv in Hrun as ([] & w8 & _ & Hrun).
  apply bind_ok_inv in Hrun as ([] & w9 & _ & Hrun).
  apply bind_ok_inv in Hrun as (codec0 & w10 & _ & Hrun).
  apply bind_ok_inv in Hrun as (container0 & w11 & _ & Hrun).
  apply bind_ok_inv in Hrun as ([] & w12 & _ & Hrun).
  apply bind_ok_inv in Hrun as ([] & w13 & _ & Hrun).
  apply bind_ok_inv in Hrun as (codec & w14 & [Hcodec _]%lift_ok_inv & Hrun).
  apply bind_ok_inv in Hrun as (container & w15 & [Hcontainer _]%lift_ok_inv & Hrun).
  unfold ret in Hrun. injection Hrun as <- _.
  unfold result_of, frames_of. simpl. rewrite Hvalue.
  repeat split; try assumption; try reflexivity.
  destruct (Z.eqb (fst proc) 0); auto.
Qed.

Lemma run_fixtures_results rt release downloads_dir log_dir fixtures :
  forall binary results w out w',
    run_fixtures rt release downloads_dir log_dir fixtures binary results w = (Ok out, w') ->
    exists new, out = (results ++ new)%list /\ Forall2 (result_of rt log_dir) fixtures new.
Proof.
  induction fixtures as [|fixture rest IH]; intros binary results w out w' Hrun; simpl in Hrun.
  - unfold ret in Hrun. injection Hrun as <- _. exists []. rewrite app_nil_r. auto.
  - apply bind_ok_inv in Hrun as (file_path & w1 & _ & Hrun).
    apply bind_ok_inv in Hrun as (r & w2 & Hr & Hrun).
    apply run_fixture_ok_inv in Hr.
    destruct (IH _ _ _ _ _ Hrun) as (new & -> & Hnew).
    exists (r :: new). rewrite <- app_assoc. split; [reflexivity|].
    constructor; assumption.
Qed.

(** A run that reaches the report has one result for each selected
    fixture, in the order of the selection: the i-th result carries the id,
    codec, container and frame count of the i-th fixture, the path of its
    log, and [pass] or [fail]. *)
Theorem results_follow_selection rt args w results w' :
  main_run rt args w = (Ok results, w') ->
  exists loaded selected items,
    load_fixtures rt (rt_path rt (a_fixtures args)) w = (Ok loaded, w)
    /\ select_suite (a_suite args) loaded = Ok selected
    /\ py_iter selected = Ok items
    /\ Forall2 (result_of rt (rt_path rt (a_log_dir args))) items results.
Proof.
  intros Hrun. unfold main_run in Hrun.
  apply bind_ok_inv in Hrun as (loaded & w1 & Hload & Hrun).
  pose proof (load_fixtures_reads_only _ _ _ _ _ Hload) as ->.
  apply bind_ok_inv in Hrun as (selected & w2 & [Hsel ->]%lift_ok_inv & Hrun).
  destruct (negb (truthy selected)); [discriminate|].
  apply bind_ok_inv in Hrun as (binary & w3 & _ & Hrun).
  apply bind_ok_inv in Hrun as (items & w4 & [Hitems ->]%lift_ok_inv & Hrun).
  apply run_fixtures_results in Hrun as (new & -> & Hnew).
  exists loaded, selected, items. auto.
Qed.

(** ** The end of a completed run *)

Lemma platform_platform_run rt w :
  platform_platform rt w
    = (Ok (fst (rt_platform rt (w_host w))),
       {| w_host := snd (rt_platform rt (w_host w));
          w_environ := w_environ w;
          w_trace := (w_trace w ++ [EvPlatform])%list |}).
Proof.
  unfold platform_platform. unfold bind, emit, get_host, put_host, ret. simpl.
  destruct (rt_platform rt (w_host w)) as [text h']. reflexivity.
Qed.

Lemma write_report_ok_inv rt results suite report_path w w' :
  write_report rt results suite report_path w = (Ok tt, w') ->
  exists text,
    w_trace w' = (w_trace w ++ [EvMkdir (rt_parent rt report_path);
                                EvPlatform;
                                EvWriteReport report_path text])%list
    /\ h_fs (w_host w') !! report_path = Some (File text)
    /\ w_environ w' = w_environ w.
Proof.
  intros Hrun. unfold write_report in Hrun.
  apply bind_ok_inv in Hrun as ([] & w1 & ->%mkdir_ok_inv & Hrun).
  unfold bind at 1 in Hrun. rewrite platform_platform_run in Hrun.
  rewrite bind_time_time in Hrun.
  apply bind_ok_inv in Hrun as ([] & w2 & ->%write_file_ok_inv & Hrun).
  unfold emit in Hrun. injection Hrun as <-. simpl.
  eexists. split; [rewrite <- !app_assoc; reflexivity|].
  split; [apply lookup_insert_eq|reflexivity].
Qed.

Lemma print_failures_run rt failures w :
  print_failures rt failures w
    = (Ok tt,
       {| w_host := w_host w;
          w_environ := w_environ w;
          w_trace := (w_trace w
                        ++ ((fun r => EvPrint ("- " +:+ py_str rt (r_id r) +:+ ": " +:+ r_log r))
                              <$> failures))%list |}).
Proof.
  revert w. induction failures as [|failure rest IH]; intros w; simpl.
  - unfold ret. rewrite app_nil_r. destruct w; reflexivity.
  - unfold print. rewrite bind_emit, IH. simpl. rewrite <- app_assoc. reflexivity.
Qed.

Lemma main_finish_ok_inv rt args results w code w' :
  main_finish rt args results w = (Ok code, w') ->
  exists text,
    w_trace w'
      = (w_trace w
           ++ [EvMkdir (rt_parent rt (rt_path rt (a_report args)));
               EvPlatform;
               EvWriteReport (rt_path rt (a_report args)) text]
           ++ console_summary rt (rt_path rt (a_report args)) results)%list
    /\ h_fs (w_host w') !! rt_path rt (a_report args) = Some (File text)
    /\ w_environ w' = w_environ w.
Proof.
  intros Hrun. unfold main_finish in Hrun.
  apply bind_ok_inv in Hrun as ([] & w1 & (text & Htr & Hfile & Henv)%write_report_ok_inv & Hrun).
  exists text. unfold console_summary.
  destruct (List.filter is_failure results) as [|failure rest].
  - unfold print in Hrun. rewrite bind_emit in Hrun. unfold ret in Hrun.
    injection Hrun as _ <-. simpl. rewrite Htr, <- app_assoc. auto.
  - unfold print in Hrun. rewrite bind_emit in Hrun. unfold bind in Hrun.
    rewrite print_failures_run in Hrun. unfold ret in Hrun.
    injection Hrun as _ <-. simpl. rewrite Htr, <- !app_assoc. auto.
Qed.

(** A run that completes, with status 0 or 1, has written the report
    once, after every build, download and player run, from the results of
    the loop; the file holds that text, and all that follows is the console
    summary: the success line, or the header and one line with id and log
    path for each failed fixture, in order. *)
Theorem completed_run_ends_with_report rt args w code w' :
  main rt args w = (Ok code, w') ->
  let report_path := rt_path rt (a_report args) in
  exists results w1 pre text,
    main_run rt args w = (Ok results, w1)
    /\ w_trace w'
       = (w_trace w ++ pre
            ++ [EvMkdir (rt_parent rt report_path); EvPlatform;
                EvWriteReport report_path text]
            ++ console_summary rt report_path results)%list
    /\ Forall not_report pre
    /\ Forall (fun e => is_report e = false) (console_summary rt report_path results)
    /\ h_fs (w_host w') !! report_path = Some (File text).
Proof.
  intros Hrun report_path. unfold main in Hrun.
  apply bind_ok_inv in Hrun as (results & w1 & Hresults & Hfinish).
  destruct (emits_main_run rt args w) as [_ (pre & Hpre & Hnot)].
  rewrite Hresults in Hpre. simpl in Hpre.
  apply main_finish_ok_inv in Hfinish as (text & Htr & Hfile & _).
  exists results, w1, pre, text. split; [exact Hresults|].
  split; [rewrite Htr, Hpre, <- app_assoc; reflexivity|].
  split; [exact Hnot|]. split; [|exact Hfile].
  unfold console_summary. destruct (List.filter is_failure results).
  - repeat constructor.
  - constructor; [reflexivity|]. apply Forall_fmap, Forall_forall. intros ? _. reflexivity.
Qed.

(** ** The processes a run starts *)

Lemma emits_bind_returns {A B} P (Q : A -> Prop) (m : M A) (k : A -> M B) :
  emits P m -> returns Q m -> (forall a, Q a -> emits P (k a)) -> emits P (bind m k).
Proof.
  intros Hm HQ Hk w. unfold bind.
  destruct (Hm w) as [Henv (evs & Htr & Hevs)].
  destruct (m w) as [[a|e] w1] eqn:Em; simpl in *.
  - destruct (Hk a (HQ w a w1 Em) w1) as [Henv' (evs' & Htr' & Hevs')].
    split; [congruence|].
    exists (evs ++ evs')%list. rewrite Htr', Htr, app_assoc.
    split; [reflexivity|]. apply Forall_app; auto.
  - split; [assumption|]. exists evs. auto.
Qed.

Lemma build_binary_returns rt release :
  returns (fun b => b = binary_path rt release) (build_binary rt release).
Proof.
  intros w b w' Hrun. unfold build_binary in Hrun.
  apply bind_ok_inv in Hrun as (env & w1 & _ & Hrun).
  apply bind_ok_inv in Hrun as (proc & w2 & _ & Hrun).
  destruct (negb (Z.eqb (fst proc) 0)); [discriminate|].
  apply bind_ok_inv in Hrun as (present & w3 & _ & Hrun).
  destruct (negb present); [discriminate|].
  unfold ret in Hrun. injection Hrun as <- _. reflexivity.
Qed.

Lemma emits_build_binary_allowed rt release :
  emits (allowed_spawn rt false release) (build_binary rt release).
Proof.
  unfold build_binary. fold (cargo_cmd release).
  apply emits_bind; [apply emits_get_environ|intros env].
  apply emits_bind; [apply emits_subprocess_run; left; auto|intros proc].
  emits_calls.
Qed.

Lemma emits_run_fixture_allowed rt skip_build release fixture file_path log_dir :
  emits (allowed_spawn rt skip_build release)
    (run_fixture rt (binary_path rt release) fixture file_path log_dir).
Proof.
  unfold run_fixture. emits_calls.
  apply emits_subprocess_run_text. right. eexists _, _. reflexivity.
Qed.

Lemma emits_run_fixtures_allowed rt skip_build release downloads_dir log_dir fixtures :
  forall binary results,
    binary = None \/ binary = Some (binary_path rt release) ->
    emits (allowed_spawn rt skip_build release)
      (run_fixtures rt release downloads_dir log_dir fixtures binary results).
Proof.
  induction fixtures as [|fixture rest IH]; intros binary results Hbinary; simpl.
  - apply emits_ret.
  - apply emits_bind; [unfold ensure_download; emits_calls|intros file_path].
    assert (match binary with Some b => b | None => binary_path rt release end
            = binary_path rt release) as ->.
    { destruct Hbinary as [-> | ->]; reflexivity. }
    apply emits_bind; [apply emits_run_fixture_allowed|intros r].
    apply IH. right. reflexivity.
Qed.

Lemma emits_main_run_allowed rt args :
  emits (allowed_spawn rt (a_skip_build args) (a_release args)) (main_run rt args).
Proof.
  unfold main_run.
  apply emits_bind; [unfold load_fixtures; emits_calls|intros loaded].
  apply emits_bind; [apply emits_lift|intros selected].
  destruct (negb (truthy selected)); [apply emits_raise|].
  apply emits_bind_returns
    with (Q := fun binary => binary = None \/ binary = Some (binary_path rt (a_release args))).
  - destruct (a_skip_build args); simpl; [apply emits_ret|].
    apply emits_bind; [apply emits_build_binary_allowed|intros b; apply emits_ret].
  - intros w binary w' Hrun. destruct (negb (a_skip_build args)).
    + apply bind_ok_inv in Hrun as (b & w1 & Hb%build_binary_returns & Hrun).
      unfold ret in Hrun. injection Hrun as <- _. right. congruence.
    + unfold ret in Hrun. injection Hrun as <- _. left. reflexivity.
  - intros binary Hbinary.
    apply emits_bind; [apply emits_lift|intros items].
    apply emits_run_fixtures_allowed. exact Hbinary.
Qed.

Lemma emits_main_finish P rt args results :
  (forall p, P (EvMkdir p)) -> (forall s, P (EvPrint s)) -> (forall p t, P (EvWriteReport p t)) ->
  P EvPlatform ->
  emits P (main_finish rt args results).
Proof.
  intros Hmkdir Hprint Hreport Hplatform. unfold main_finish, write_report.
  assert (forall failures, emits P (print_failures rt failures)) as Hfailures.
  { induction failures as [|failure rest IH]; simpl; [apply emits_ret|].
    apply emits_bind; [apply emits_emit, Hprint|intros _; exact IH]. }
  apply emits_bind.
  - apply emits_bind; [apply emits_mkdir, Hmkdir|intros _].
    apply emits_bind; [apply emits_platform_platform, Hplatform|intros platform_info].
    apply emits_bind; [apply emits_time_time|intros now].
    apply emits_bind; [apply emits_write_file|intros _].
    apply emits_emit, Hreport.
  - intros _. destruct (List.filter is_failure results).
    + apply emits_bind; [apply emits_emit, Hprint|intros _; apply emits_ret].
    + apply emits_bind; [apply emits_emit, Hprint|intros _].
      apply emits_bind; [apply Hfailures|intros _; apply emits_ret].
Qed.

Lemma emits_main_allowed rt args :
  emits (allowed_spawn rt (a_skip_build args) (a_release args)) (main rt args).
Proof.
  unfold main. apply emits_bind; [apply emits_main_run_allowed|intros results].
  apply emits_main_finish; intros; exact I.
Qed.

(** The only commands the harness runs with [subprocess.run] are the
    build, and only when it is not skipped, and the player at the path of
    the build mode ([target/release/slain] or [target/debug/slain]) with
    the command line [--headless --input <file> --frames <n>]. (The one
    other place where a process may start is [platform.platform()] in the
    report, an [EvPlatform] event of its own.) *)
Theorem run_starts_only_build_and_player rt args w :
  exists evs,
    w_trace (snd (script rt args w)) = (w_trace w ++ evs)%list
    /\ Forall (allowed_spawn rt (a_skip_build args) (a_release args)) evs
    /\ (a_skip_build args = true ->
        forall env, ~ In (EvSpawn (cargo_cmd (a_release args)) env) evs).
Proof.
  destruct (emits_main_allowed rt args w) as [_ (evs & Htr & Hevs)].
  assert (exists evs',
             w_trace (snd (script rt args w)) = (w_trace w ++ evs')%list
             /\ Forall (allowed_spawn rt (a_skip_build args) (a_release args)) evs')
    as (evs' & Htr' & Hevs').
  { unfold script. destruct (main rt args w) as [[code|e] w1]; simpl in *.
    - exists evs. auto.
    - exists (evs ++ [EvTraceback e])%list. rewrite Htr, app_assoc.
      split; [reflexivity|]. apply Forall_app. split; [exact Hevs|].
      constructor; [exact I|constructor]. }
  exists evs'. split; [exact Htr'|]. split; [exact Hevs'|].
  intros Hskip env Hin. rewrite Forall_forall in Hevs'.
  apply list_elem_of_In, Hevs' in Hin. simpl in Hin.
  destruct Hin as [[Hfalse _]|(file_path & frames & Hcmd)]; [congruence|].
  unfold cargo_cmd, player_cmd in Hcmd. destruct (a_release args); discriminate.
Qed.

(** The environment of the harness process is the same after a run as
    before it, however the run ends. *)
Theorem run_keeps_environment rt args w :
  w_environ (snd (script rt args w)) = w_environ w.
Proof.
  destruct (emits_main_allowed rt args w) as [Henv _].
  unfold script. destruct (main rt args w) as [[code|e] w1]; exact Henv.
Qed.

(** ** The order of a run *)

Lemma bind_assoc {A B C} (m : M A) (k : A -> M B) (k' : B -> M C) w :
  bind (bind m k) k' w = bind m (fun a => bind (k a) k') w.
Proof. unfold bind. destruct (m w) as [[a|e] w1]; reflexivity. Qed.

Lemma bind_run_ok {A B} (m : M A) (k : A -> M B) w a w1 :
  m w = (Ok a, w1) -> bind m k w = k a w1.
Proof. intros Hm. unfold bind. rewrite Hm. reflexivity. Qed.

Lemma bind_run_raise {A B} (m : M A) (k : A -> M B) w e w1 :
  m w = (Raise e, w1) -> bind m k w = (Raise e, w1).
Proof. intros Hm. unfold bind. rewrite Hm. reflexivity. Qed.

Lemma build_binary_world rt release w :
  snd (build_binary rt release w)
    = {| w_host := snd (rt_spawn rt (cargo_cmd release) (w_environ w) (w_host w));
         w_environ := w_environ w;
         w_trace := (w_trace w ++ [EvSpawn (cargo_cmd release) (w_environ w)])%list |}.
Proof.
  unfold build_binary. fold (cargo_cmd release).
  rewrite bind_get_environ, bind_subprocess_run. cbv zeta.
  destruct (fst (rt_spawn rt (cargo_cmd release) (w_environ w) (w_host w)))
    as [[returncode output]|]; [|reflexivity]. cbn [fst snd].
  destruct (Z.eqb returncode 0); cbn [negb]; [|reflexivity].
  rewrite bind_path_exists. cbn [w_host].
  destruct (bool_decide _); reflexivity.
Qed.

(** When the build is not skipped it is the first thing a run does after
    the selection, with the environment of the caller, and it is done
    once: a run that adds anything to the trace starts with it, and every
    command the harness runs with [subprocess.run] afterwards is the
    player. *)
Theorem build_comes_first rt args w :
  a_skip_build args = false ->
  exists evs,
    w_trace (snd (main rt args w)) = (w_trace w ++ evs)%list
    /\ (evs = []
        \/ exists rest,
             evs = EvSpawn (cargo_cmd (a_release args)) (w_environ w) :: rest
             /\ Forall (allowed_spawn rt true (a_release args)) rest).
Proof.
  intros Hskip. unfold main, main_run. rewrite Hskip. cbn [negb].
  rewrite bind_assoc.
  destruct (load_fixtures rt (rt_path rt (a_fixtures args)) w) as [[loaded|e] w1] eqn:Hload;
    pose proof (load_fixtures_reads_only _ _ _ _ _ Hload) as ->.
  2:{ rewrite (bind_run_raise _ _ _ _ _ Hload). exists []. rewrite app_nil_r. auto. }
  rewrite (bind_run_ok _ _ _ _ _ Hload), bind_assoc.
  destruct (select_suite (a_suite args) loaded) as [selected|e].
  2:{ rewrite bind_lift_raise. exists []. rewrite app_nil_r. auto. }
  rewrite bind_lift_ok.
  destruct (negb (truthy selected)).
  { exists []. rewrite app_nil_r. auto. }
  rewrite !bind_assoc.
  pose proof (build_binary_world rt (a_release args) w) as Hworld.
  destruct (build_binary rt (a_release args) w) as [[b|e] w1] eqn:Hbuild; simpl in Hworld.
  2:{ rewrite (bind_run_raise _ _ _ _ _ Hbuild). subst w1. simpl.
      exists [EvSpawn (cargo_cmd (a_release args)) (w_environ w)].
      split; [reflexivity|]. right. exists []. auto. }
  rewrite (bind_run_ok _ _ _ _ _ Hbuild).
  pose proof (build_binary_returns rt (a_release args) w b w1 Hbuild) as ->.
  lazymatch goal with
  | |- context [snd (?m w1)] =>
      assert (emits (allowed_spawn rt true (a_release args)) m) as Hrest
  end.
  { apply emits_bind_returns
      with (Q := fun binary => binary = Some (binary_path rt (a_release args))).
    - apply emits_ret.
    - intros w0 a w0' [= <- _]. reflexivity.
    - intros ? ->. apply emits_bind.
      + apply emits_bind; [apply emits_lift|intros items].
        apply emits_run_fixtures_allowed. right. reflexivity.
      + intros results. apply emits_main_finish; intros; exact I. }
  destruct (Hrest w1) as [_ (rest & Htr & Hall)].
  exists (EvSpawn (cargo_cmd (a_release args)) (w_environ w) :: rest).
  split; [|right; eauto]. rewrite Htr. subst w1. simpl. rewrite <- app_assoc. reflexivity.
Qed.

(** ** The status of every run *)

(** Once [parse_args] has returned, with a suite among its choices, the
    status of the process is 0 or 1, and it is 0 exactly when the loop
    has run to its end, every result is [pass] and the report could be
    written. *)
Theorem run_status rt args w :
  In (a_suite args) suite_choices ->
  (fst (script rt args w) = 0 \/ fst (script rt args w) = 1)
  /\ (fst (script rt args w) = 0
      <-> exists results w1 w2,
            main_run rt args w = (Ok results, w1)
            /\ Forall passed results
            /\ write_report rt results (a_suite args) (rt_path rt (a_report args)) w1
               = (Ok tt, w2)).
Proof.
  intros _. unfold script.
  destruct (main rt args w) as [[code|e] w'] eqn:Hmain; simpl.
  - unfold main in Hmain.
    apply bind_ok_inv in Hmain as (results & w1 & Hresults & Hfinish).
    pose proof (main_finish_code _ _ _ _ _ _ Hfinish) as Hcode.
    unfold main_finish in Hfinish.
    apply bind_ok_inv in Hfinish as ([] & w2 & Hreport & _).
    destruct (decide (Forall passed results)) as [Hall|Hsome]; subst code.
    + split; [left; reflexivity|]. split; [|reflexivity]. intros _.
      exists results, w1, w2. auto.
    + split; [right; reflexivity|]. split; [discriminate|].
      intros (results' & w1' & w2' & Hresults' & Hall & _).
      rewrite Hresults in Hresults'. injection Hresults' as <- _. contradiction.
  - split; [right; reflexivity|]. split; [discriminate|].
    intros (results & w1 & w2 & Hresults & Hall & Hreport). exfalso.
    unfold main in Hmain. rewrite (bind_run_ok _ _ _ _ _ Hresults) in Hmain.
    unfold main_finish in Hmain. rewrite (bind_run_ok _ _ _ _ _ Hreport) in Hmain.
    apply filter_failures_nil in Hall. rewrite Hall in Hmain. discriminate.
Qed.

(** ** More on the selection *)

Lemma forallb_is_dict_filter suite catalog :
  forallb is_dict catalog = true -> forallb is_dict (filter_by_suite suite catalog) = true.
Proof.
  induction catalog as [|f rest IH]; simpl; [reflexivity|].
  intros [Hf Hrest]%andb_prop. destruct (has_suite suite f); simpl; [rewrite Hf|]; auto.
Qed.

Lemma filter_by_suite_twice suite catalog :
  filter_by_suite suite (filter_by_suite suite catalog) = filter_by_suite suite catalog.
Proof.
  induction catalog as [|f rest IH]; simpl; [reflexivity|].
  destruct (has_suite suite f) eqn:E; simpl; [rewrite E, IH|]; auto.
Qed.

(** Selecting [smoke] from a [smoke] selection changes nothing. *)
Theorem smoke_selection_idempotent catalog selected :
  select_suite "smoke" (JArr catalog) = Ok selected ->
  select_suite "smoke" selected = Ok selected.
Proof.
  unfold select_suite. simpl.
  destruct (forallb is_dict catalog) eqn:Hdicts.
  - rewrite (smoke_only_dicts _ Hdicts). intros [= <-]. cbn [py_iter].
    rewrite (smoke_only_dicts _ (forallb_is_dict_filter "smoke" _ Hdicts)).
    rewrite filter_by_suite_twice. reflexivity.
  - rewrite (smoke_only_other _ Hdicts). discriminate.
Qed.

Lemma smoke_only_strings (keys : list string) :
  keys <> [] -> smoke_only (JStr <$> keys) = Raise AttributeError.
Proof. destruct keys; [contradiction|reflexivity]. Qed.

(** A [fixtures] value that is not a list of records: under [smoke] a
    dictionary or a string is an [AttributeError] of the comprehension and
    a number is a [TypeError], both raised by the selection; and a key of
    such a dictionary, taken as a fixture by the loop, is an
    [AttributeError] of [ensure_download], raised before anything is
    created or fetched. *)
Theorem selection_of_malformed_catalog rt downloads_dir w :
  (forall m : gmap string json, m <> ∅ -> select_suite "smoke" (JObj m) = Raise AttributeError)
  /\ (forall s, s <> "" -> select_suite "smoke" (JStr s) = Raise AttributeError)
  /\ (forall z, select_suite "smoke" (JInt z) = Raise TypeError)
  /\ (forall key, ensure_download rt (JStr key) downloads_dir w = (Raise AttributeError, w)).
Proof.
  split; [|split; [|split]].
  - intros m Hm. unfold select_suite. simpl.
    rewrite smoke_only_strings; [reflexivity|].
    intros Hnil. apply fmap_nil_inv in Hnil. apply map_to_list_empty_iff in Hnil.
    contradiction.
  - intros s Hs. unfold select_suite. simpl. destruct s; [contradiction|reflexivity].
  - reflexivity.
  - reflexivity.
Qed.

(** ** When a fixture run returns *)


(** ** A log that cannot be written *)



(** When the output of the player is not text, [subprocess.run] raises
    after the player has ended, whatever its return code: the log
    directory is not made, no log is written and no result returned. *)
Theorem run_fixture_output_not_text rt binary fixture file_path log_dir w
    fixture_id frames returncode raw :
  let env := setdefault "RUST_LOG" "info" (w_environ w) in
  let cmd := player_cmd binary file_path frames in
  let spawned := rt_spawn rt cmd env (w_host w) in
  py_getitem fixture "id" = Ok fixture_id ->
  frames_of rt fixture = Ok frames ->
  fst spawned = Some (returncode, raw) ->
  rt_decode rt raw = None ->
  run_fixture rt binary fixture file_path log_dir w
    = (Raise ValueError,
       {| w_host := snd spawned;
          w_environ := w_environ w;
          w_trace := (w_trace w ++ [EvSpawn cmd env])%list |}).
Proof.
  intros env cmd spawned Hid Hframes Hspawn Hdecode.
  unfold frames_of in Hframes.
  destruct (py_get fixture "frames" (JInt 60)) as [value|] eqn:Hvalue; [|discriminate].
  unfold run_fixture.
  rewrite Hid, bind_lift_ok, Hvalue, bind_lift_ok, Hframes, bind_lift_ok.
  rewrite bind_get_environ, bind_time_time, bind_subprocess_run_text. cbv zeta.
  fold env. fold (player_cmd binary file_path frames). fold cmd. fold spawned.
  rewrite Hspawn. cbn [fst snd]. rewrite Hdecode. reflexivity.
Qed.

(** ** Instances of the further properties *)

Lemma load_fixtures_ok_iff_witness :
  load_fixtures (demo_runtime (scenario [fixture_a] 0 "ok")) "matrix.json" demo_world
    = (Ok (JArr [fixture_a]), demo_world).
Proof.
  apply (load_fixtures_ok_iff (demo_runtime (scenario [fixture_a] 0 "ok")) "matrix.json"
           demo_world (JArr [fixture_a]) demo_world).
  split; [reflexivity|]. exists "matrix", (list_to_map [("fixtures", JArr [fixture_a])]).
  repeat split; reflexivity.
Defined.

Lemma load_fixtures_empty_witness :
  load_fixtures (demo_runtime (scenario [] 0 "ok")) "matrix.json" demo_world
    = (Raise (RuntimeError "No fixtures found in matrix file."), demo_world).
Proof.
  apply (load_fixtures_empty (demo_runtime (scenario [] 0 "ok")) "matrix.json" demo_world
           "matrix" (list_to_map [("fixtures", JArr [])])).
  - reflexivity.
  - reflexivity.
  - right. exists (JArr []). split; reflexivity.
Defined.

Lemma load_fixtures_not_dict_witness :
  load_fixtures (demo_runtime bare_list_demo) "matrix.json" demo_world
    = (Raise AttributeError, demo_world).
Proof.
  apply (load_fixtures_not_dict (demo_runtime bare_list_demo) "matrix.json" demo_world
           "matrix" (JArr [fixture_a])); reflexivity.
Defined.


Lemma ensure_download_file_not_string_witness :
  fst (ensure_download (demo_runtime (scenario [fixture_a] 0 "ok")) (JObj fields_n)
         "slain-player/fixtures/downloads" demo_world)
    = Raise TypeError.
Proof.
  rewrite (ensure_download_file_not_string (demo_runtime (scenario [fixture_a] 0 "ok"))
             (JObj fields_n) "slain-player/fixtures/downloads" demo_world (JInt 5)
             (JStr "http://x/n.mp4")).
  - reflexivity.
  - reflexivity.
  - reflexivity.
  - reflexivity.
  - reflexivity.
  - intros s. discriminate.
  - intros data. vm_compute. discriminate.
Defined.


Lemma build_binary_contract_witness :
  fst (build_binary (demo_runtime (scenario [fixture_a] 0 "ok")) false demo_world)
    = Ok "target/debug/slain".
Proof.
  destruct (build_binary_contract (demo_runtime (scenario [fixture_a] 0 "ok")) false
              demo_world) as (_ & _ & Hok & _).
  apply Hok. split; [reflexivity|]. split; [eexists; vm_compute; reflexivity|].
  exists "". vm_compute. reflexivity.
Defined.

Lemma run_fixture_frames_witness :
  exists evs,
    w_trace (snd (run_fixture (demo_runtime (scenario [fixture_a] 0 "ok")) "target/debug/slain"
                    fixture_a "slain-player/fixtures/downloads/a.mp4"
                    "artifacts/headless-logs" warm_world))
      = (w_trace warm_world
           ++ EvSpawn (player_cmd "target/debug/slain" "slain-player/fixtures/downloads/a.mp4" 60)
                (setdefault "RUST_LOG" "info" (w_environ warm_world)) :: evs)%list.
Proof.
  destruct (run_fixture_frames (demo_runtime (scenario [fixture_a] 0 "ok"))
              "target/debug/slain" fields_a "slain-player/fixtures/downloads/a.mp4"
              "artifacts/headless-logs" warm_world (JStr "a") eq_refl) as (Habsent & _).
  apply Habsent. reflexivity.
Defined.

Lemma run_fixture_player_not_started_witness :
  fst (run_fixture (demo_runtime (scenario [fixture_a] 0 "ok")) "target/debug/slain"
         fixture_a "slain-player/fixtures/downloads/a.mp4" "artifacts/headless-logs"
         demo_world)
    = Raise OSError.
Proof.
  rewrite (run_fixture_player_not_started (demo_runtime (scenario [fixture_a] 0 "ok"))
             "target/debug/slain" fixture_a "slain-player/fixtures/downloads/a.mp4"
             "artifacts/headless-logs" demo_world (JStr "a") 60).
  - reflexivity.
  - reflexivity.
  - reflexivity.
  - vm_compute. reflexivity.
Defined.

Lemma results_follow_selection_witness :
  let rt := demo_runtime (scenario [fixture_b; fixture_a] 3 "boom") in
  let args := demo_args "full" false in
  exists results w',
    main_run rt args demo_world = (Ok results, w')
    /\ exists loaded selected items,
         load_fixtures rt (rt_path rt (a_fixtures args)) demo_world = (Ok loaded, demo_world)
         /\ select_suite (a_suite args) loaded = Ok selected
         /\ py_iter selected = Ok items
         /\ Forall2 (result_of rt (rt_path rt (a_log_dir args))) items results.
Proof.
  cbv zeta. eexists _, _. split; [vm_compute; reflexivity|].
  eapply results_follow_selection. vm_compute. reflexivity.
Defined.

Lemma completed_run_ends_with_report_witness :
  let rt := demo_runtime (scenario [fixture_b; fixture_a] 3 "boom") in
  let args := demo_args "full" false in
  exists w', main rt args demo_world = (Ok 1, w')
    /\ exists text, h_fs (w_host w') !! "artifacts/headless-report.md" = Some (File text).
Proof.
  cbv zeta. eexists. split; [vm_compute; reflexivity|].
  edestruct (completed_run_ends_with_report
               (demo_runtime (scenario [fixture_b; fixture_a] 3 "boom"))
               (demo_args "full" false) demo_world 1)
    as (results & w1 & pre & text & _ & _ & _ & _ & Hfile).
  - vm_compute. reflexivity.
  - exists text. exact Hfile.
Defined.

Lemma run_starts_only_build_and_player_witness :
  let rt := demo_runtime (scenario [fixture_a] 0 "ok") in
  ~ In (EvSpawn (cargo_cmd false) (w_environ warm_world))
       (w_trace (snd (script rt (demo_args "smoke" true) warm_world))).
Proof.
  cbv zeta.
  destruct (run_starts_only_build_and_player (demo_runtime (scenario [fixture_a] 0 "ok"))
              (demo_args "smoke" true) warm_world) as (evs & Htr & _ & Hskip).
  rewrite Htr. simpl. apply (Hskip eq_refl).
Defined.

Lemma build_comes_first_witness :
  let rt := demo_runtime (scenario [fixture_a] 0 "ok") in
  exists evs,
    w_trace (snd (main rt (demo_args "smoke" false) demo_world))
      = (w_trace demo_world ++ evs)%list
    /\ (evs = []
        \/ exists rest,
             evs = EvSpawn (cargo_cmd false) (w_environ demo_world) :: rest
             /\ Forall (allowed_spawn rt true false) rest).
Proof.
  cbv zeta.
  apply (build_comes_first (demo_runtime (scenario [fixture_a] 0 "ok"))
           (demo_args "smoke" false) demo_world).
  reflexivity.
Defined.

Lemma run_status_witness :
  fst (script (demo_runtime (scenario [fixture_b; fixture_a] 0 "ok"))
         (demo_args "smoke" false) demo_world) = 0.
Proof.
  apply (run_status (demo_runtime (scenario [fixture_b; fixture_a] 0 "ok"))
           (demo_args "smoke" false) demo_world).
  { left. reflexivity. }
  eexists _, _, _. split; [vm_compute; reflexivity|].
  split; [repeat constructor|]. vm_compute. reflexivity.
Defined.

Lemma smoke_selection_idempotent_witness :
  select_suite "smoke" (JArr [fixture_a]) = Ok (JArr [fixture_a]).
Proof.
  apply (smoke_selection_idempotent [fixture_b; fixture_a] (JArr [fixture_a])).
  reflexivity.
Defined.

Lemma selection_of_malformed_catalog_witness :
  select_suite "smoke" (JObj fields_a) = Raise AttributeError.
Proof.
  destruct (selection_of_malformed_catalog (demo_runtime (scenario [] 0 "ok"))
              "slain-player/fixtures/downloads" demo_world) as (Hdict & _).
  apply Hdict. intros Hempty.
  apply (f_equal (fun m : gmap string json => m !! "id")) in Hempty. discriminate.
Defined.


Lemma run_fixture_output_not_text_witness :
  fst (run_fixture (demo_runtime (scenario [fixture_a] 0 binary_output)) "target/debug/slain"
         fixture_a "slain-player/fixtures/downloads/a.mp4" "artifacts/headless-logs"
         ready_world)
    = Raise ValueError.
Proof.
  rewrite (run_fixture_output_not_text (demo_runtime (scenario [fixture_a] 0 binary_output))
             "target/debug/slain" fixture_a "slain-player/fixtures/downloads/a.mp4"
             "artifacts/headless-logs" ready_world (JStr "a") 60 0 binary_output).
  - reflexivity.
  - reflexivity.
  - reflexivity.
  - vm_compute. reflexivity.
  - reflexivity.
Defined.

